(** * The Extension controller of provider-postgresql

    A shallow embedding of pkg/controller/postgresql/extension/reconciler.go:
    the comparator [upToDate], the merger [lateInit] and the four entry
    points Observe, Create, Update and Delete of the external client,
    together with the small parts of the libraries they call (pkg/errors,
    lib/pq, xsql, crossplane-runtime's meta and managed). *)

From Stdlib Require Import String Ascii List Bool Arith Lia.
Import ListNotations.
Open Scope string_scope.

(** ** Go strings

    A Go string is a sequence of bytes; [string] (a list of 8-bit [ascii])
    is that sequence. *)

Module strings.

(** strings.HasPrefix(s, p) *)
Fixpoint HasPrefix (s p : string) {struct p} : bool :=
  match p with
  | EmptyString => true
  | String c p' =>
      match s with
      | EmptyString => false
      | String d s' => Ascii.eqb c d && HasPrefix s' p'
      end
  end.

(** strings.Contains(s, sub) *)
Fixpoint Contains (s sub : string) : bool :=
  HasPrefix s sub ||
  match s with
  | EmptyString => false
  | String _ s' => Contains s' sub
  end.

(** The byte 0x22, the double quote. *)
Definition dquote : ascii := Ascii false true false false false true false false.

(** The byte 0x00. *)
Definition nul : ascii := Ascii.zero.

(** name[:end] where end is strings.IndexRune(name, 0), and name itself
    when no zero byte occurs. *)
Fixpoint UntilNul (name : string) : string :=
  match name with
  | EmptyString => EmptyString
  | String c rest =>
      if Ascii.eqb c nul then EmptyString else String c (UntilNul rest)
  end.

(** strings.IndexByte(s, c) >= 0 *)
Fixpoint HasByte (c : ascii) (s : string) : bool :=
  match s with
  | EmptyString => false
  | String d rest => Ascii.eqb d c || HasByte c rest
  end.

(** strings.Replace(s, one double quote, two double quotes, -1) *)
Fixpoint DoubleQuotes (s : string) : string :=
  match s with
  | EmptyString => EmptyString
  | String c rest =>
      if Ascii.eqb c dquote
      then String dquote (String dquote (DoubleQuotes rest))
      else String c (DoubleQuotes rest)
  end.

End strings.

(** ** github.com/pkg/errors and database/sql errors *)

Module errors.

(** A non-nil Go error, as far as this controller can tell errors apart:
    the sentinel sql.ErrNoRows, an error made from a message, and an error
    wrapped with a message.  A Go value of type error is [option error],
    [None] being nil. *)
Inductive error : Type :=
| ErrNoRows : error
| New : string -> error
| Wrapped : error -> string -> error.

(** err.Error() *)
Fixpoint Error (e : error) : string :=
  match e with
  | ErrNoRows => "sql: no rows in result set"
  | New msg => msg
  | Wrapped cause msg => msg ++ ": " ++ Error cause
  end.

(** errors.Wrap(err, message): nil when err is nil. *)
Definition Wrap (err : option error) (message : string) : option error :=
  match err with
  | None => None
  | Some e => Some (Wrapped e message)
  end.

(** errors.Is(err, sql.ErrNoRows) on a non-nil error: follows the chain of
    causes. *)
Fixpoint IsErrNoRows (e : error) : bool :=
  match e with
  | ErrNoRows => true
  | New _ => false
  | Wrapped cause _ => IsErrNoRows cause
  end.

End errors.
Import errors.

(** ** github.com/lib/pq *)

Module pq.

(** pq.QuoteIdentifier: the name is cut immediately before its first zero
    byte, every double quote in it is doubled, and the result is put
    between double quotes. *)
Definition QuoteIdentifier (name : string) : string :=
  String strings.dquote
    (strings.DoubleQuotes (strings.UntilNul name) ++ String strings.dquote "").

End pq.

(** ** pkg/clients/xsql *)

Module xsql.

(** xsql.Query: a command string and its ordered parameters.  The only
    parameters this controller passes are strings. *)
Record Query : Type := mkQuery {
  String_ : string;
  Parameters : list string
}.

(** The xsql.DB interface, over the type [H] of the state behind the
    handle.  Exec runs a command that returns no rows.  Scan runs a query
    that returns one row of one column and stores it in the destination
    cell, given here with its value before the call and returned with its
    value after the call. *)
Class DB (H : Type) : Type := {
  Exec : Query -> H -> option error * H;
  Scan : Query -> string -> H -> (option error * string) * H
}.

(** Modelled from the spec: xsql.IsNoRows, whose source file is not among
    the sources.  The spec asks the executor for a recognizable
    no-rows error classification; the package implements it as errors.Is
    against sql.ErrNoRows, which is false on a nil error. *)
Definition IsNoRows (err : option error) : bool :=
  match err with
  | None => false
  | Some e => IsErrNoRows e
  end.

End xsql.
Import xsql.

(** ** apis/postgresql/v1alpha1 and crossplane-runtime *)

Module apis.

(** Modelled from the spec: the declaration of ExtensionParameters is not
    among the sources.  The spec gives the desired state a name (required,
    a plain string that lateInit and Create compare with the empty string),
    an optional version (a pointer to a string, nil when unset) and an
    optional template. *)
Record ExtensionParameters : Type := mkExtensionParameters {
  Extension : string;
  Version : option string;
  Template : option string
}.

End apis.
Import apis.

Module xpv1.

Inductive ConditionType : Type := TypeReady | TypeSynced.
Inductive ConditionStatus : Type := ConditionTrue | ConditionFalse | ConditionUnknown.

Record Condition : Type := mkCondition {
  Type_ : ConditionType;
  Status : ConditionStatus;
  Reason : string
}.

(** xpv1.Available() *)
Definition Available : Condition := mkCondition TypeReady ConditionTrue "Available".

Definition ConditionType_eqb (a b : ConditionType) : bool :=
  match a, b with
  | TypeReady, TypeReady | TypeSynced, TypeSynced => true
  | _, _ => false
  end.

(** ConditionedStatus.SetConditions for one condition: a condition of the
    same type is replaced in place, otherwise the condition is appended. *)
Fixpoint SetCondition (c : Condition) (cs : list Condition) : list Condition :=
  match cs with
  | [] => [c]
  | c' :: rest =>
      if ConditionType_eqb (Type_ c') (Type_ c) then c :: rest
      else c' :: SetCondition c rest
  end.

End xpv1.

Module v1alpha1.

(** The Extension custom resource: its external-name annotation (the value
    meta.GetExternalName reads, empty when the annotation is absent), its
    spec.forProvider and its status conditions.  The module is not
    imported, so that [Extension] stays the field of the parameters and
    [v1alpha1.Extension] is the resource. *)
Record Extension : Type := mkExtension {
  ExternalName : string;
  ForProvider : ExtensionParameters;
  Conditions : list xpv1.Condition
}.

(** cr.SetConditions(c) *)
Definition SetConditions (c : xpv1.Condition) (cr : Extension) : Extension :=
  mkExtension (ExternalName cr) (ForProvider cr) (xpv1.SetCondition c (Conditions cr)).

(** cr.Spec.ForProvider = p *)
Definition SetForProvider (p : ExtensionParameters) (cr : Extension) : Extension :=
  mkExtension (ExternalName cr) p (Conditions cr).

End v1alpha1.

(** resource.Managed: the interface value handed to the external client.  The
    type assertion to a pointer to v1alpha1.Extension succeeds on
    [MgExtension] only. *)
Inductive Managed : Type :=
| MgExtension : v1alpha1.Extension -> Managed
| MgOther : string -> Managed.

Module meta.
Definition GetExternalName (cr : v1alpha1.Extension) : string :=
  v1alpha1.ExternalName cr.
End meta.

Module managed.

Record ExternalObservation : Type := mkExternalObservation {
  ResourceExists : bool;
  ResourceUpToDate : bool;
  ResourceLateInitialized : bool
}.

(** managed.ExternalObservation{} *)
Definition NoObservation : ExternalObservation :=
  mkExternalObservation false false false.

(** managed.ExternalCreation{} and managed.ExternalUpdate{} carry only
    connection details, which this controller never sets. *)
Inductive ExternalCreation : Type := mkExternalCreation.
Inductive ExternalUpdate : Type := mkExternalUpdate.

End managed.
Import managed.

(** ** The controller: constants *)

Definition errNotExtension : string := "managed resource is not a Extension custom resource".
Definition errSelectExtension : string := "cannot select extension".
Definition errCreateExtension : string := "cannot create extension".
Definition errDropExtension : string := "cannot drop extension".

(** ** Comparator and merger *)

Definition option_string_eqb (a b : option string) : bool :=
  match a, b with
  | None, None => true
  | Some x, Some y => String.eqb x y
  | _, _ => false
  end.

(** upToDate: cmp.Equal(desired, observed) with the Template field ignored.
    cmp.Equal compares strings with ==, and pointers by nil-ness and then by
    the values they point to. *)
Definition upToDate (observed desired : ExtensionParameters) : bool :=
  String.eqb (Extension desired) (Extension observed)
  && option_string_eqb (Version desired) (Version observed).

(** lateInit: the Go function mutates the desired parameters through a
    pointer and returns a flag; here it returns the flag with the parameters
    as they are after the call. *)
Definition lateInit (observed desired : ExtensionParameters)
  : bool * ExtensionParameters :=
  let li := false in
  let '(desired, li) :=
    if String.eqb (Extension desired) ""
    then (mkExtensionParameters (Extension observed) (Version desired) (Template desired), true)
    else (desired, li) in
  let '(desired, li) :=
    match Version desired with
    | None =>
        (mkExtensionParameters (Extension desired) (Version observed) (Template desired), true)
    | Some _ => (desired, li)
    end in
  (li, desired).

(** ** The external client

    The client holds a database handle and is given a managed resource by
    pointer.  Both are state: [mg] is the resource behind the pointer, [db]
    the state behind the handle.  [calls] is the record of what an entry
    point did, in order: the commands and queries handed to the executor and
    the calls of the comparator and of the merger. *)

Inductive Event : Type :=
| DBExec : Query -> Event
| DBScan : Query -> Event
| CalledLateInit : Event
| CalledUpToDate : Event.

Section External.

Context {H : Type} `{DB H}.

Record State : Type := mkState {
  mg : Managed;
  db : H;
  calls : list Event
}.

Definition M (A : Type) : Type := State -> A * State.

Definition ret {A : Type} (a : A) : M A := fun st => (a, st).

Definition bind {A B : Type} (m : M A) (k : A -> M B) : M B :=
  fun st => let '(a, st') := m st in k a st'.

Definition getMg : M Managed := fun st => (mg st, st).

Definition putMg (m : Managed) : M unit :=
  fun st => (tt, mkState m (db st) (calls st)).

Definition note (e : Event) : M unit :=
  fun st => (tt, mkState (mg st) (db st) (calls st ++ [e])).

(** c.db.Exec(ctx, q) *)
Definition dbExec (q : Query) : M (option error) :=
  fun st =>
    let '(err, h) := Exec q (db st) in
    (err, mkState (mg st) h (calls st ++ [DBExec q])).

(** c.db.Scan(ctx, q, dest) with one destination cell *)
Definition dbScan (q : Query) (dest : string) : M (option error * string) :=
  fun st =>
    let '(r, h) := Scan q dest (db st) in
    (r, mkState (mg st) h (calls st ++ [DBScan q])).

Notation "x <- m ;; k" := (bind m (fun x => k))
  (at level 61, m at next level, right associativity).
Notation "' p <- m ;; k" := (bind m (fun x => let 'p := x in k))
  (at level 61, p pattern, m at next level, right associativity).
Notation "m ;;; k" := (bind m (fun _ => k))
  (at level 61, right associativity).

(** The query of Observe, as the source concatenates it. *)
Definition selectQuery : string :=
  "SELECT " ++ "extversion, " ++ "FROM pg_extension " ++ "WHERE extname=$1".

(** The command Create writes into its strings.Builder. *)
Definition createCommand (p : ExtensionParameters) : string :=
  let b := "CREATE EXTENSION " in
  let b :=
    if negb (String.eqb (Extension p) "")
    then b ++ pq.QuoteIdentifier (Extension p)
    else b in
  let b :=
    match Version p with
    | Some v => (b ++ " VERSION ") ++ pq.QuoteIdentifier v
    | None => b
    end in
  b.

(** The command of Delete. *)
Definition dropCommand (cr : v1alpha1.Extension) : string :=
  "DROP EXTENSION " ++ pq.QuoteIdentifier (meta.GetExternalName cr).

Definition Observe : M (ExternalObservation * option error) :=
  m <- getMg ;;
  match m with
  | MgOther _ => ret (NoObservation, Some (New errNotExtension))
  | MgExtension cr =>
      (* new(string) is the address of an empty string: the observed name
         starts empty and nothing below assigns it; the observed version
         is the cell Scan fills. *)
      let observedExtension := "" in
      let observedVersion := "" in
      '(err, observedVersion) <-
        dbScan (mkQuery selectQuery [meta.GetExternalName cr]) observedVersion ;;
      if IsNoRows err then
        ret (mkExternalObservation false false false, None)
      else
        match err with
        | Some _ => ret (NoObservation, Wrap err errSelectExtension)
        | None =>
            let observed :=
              mkExtensionParameters observedExtension (Some observedVersion) None in
            let cr := v1alpha1.SetConditions xpv1.Available cr in
            putMg (MgExtension cr) ;;;
            (* The fields of the returned struct are evaluated in the order
               they are written: lateInit first, then upToDate on the desired
               parameters as lateInit left them. *)
            note CalledLateInit ;;;
            let '(li, desired) := lateInit observed (v1alpha1.ForProvider cr) in
            let cr := v1alpha1.SetForProvider desired cr in
            putMg (MgExtension cr) ;;;
            note CalledUpToDate ;;;
            let up := upToDate observed (v1alpha1.ForProvider cr) in
            ret (mkExternalObservation true up li, None)
        end
  end.

Definition Create : M (ExternalCreation * option error) :=
  m <- getMg ;;
  match m with
  | MgOther _ => ret (mkExternalCreation, Some (New errNotExtension))
  | MgExtension cr =>
      err <- dbExec (mkQuery (createCommand (v1alpha1.ForProvider cr)) []) ;;
      ret (mkExternalCreation, Wrap err errCreateExtension)
  end.

Definition Update : M (ExternalUpdate * option error) :=
  m <- getMg ;;
  match m with
  | MgOther _ => ret (mkExternalUpdate, Some (New errNotExtension))
  | MgExtension cr => ret (mkExternalUpdate, None)
  end.

Definition Delete : M (option error) :=
  m <- getMg ;;
  match m with
  | MgOther _ => ret (Some (New errNotExtension))
  | MgExtension cr =>
      err <- dbExec (mkQuery (dropCommand cr) []) ;;
      ret (Wrap err errDropExtension)
  end.

End External.

Arguments State H : clear implicits.
Arguments M H A : clear implicits.

(** Runs an entry point up to its first call of the executor. *)
Ltac run :=
  cbv [Observe Create Update Delete bind ret getMg putMg note dbExec dbScan];
  cbn [mg db calls fst snd].

(** ** A database for examples

    A stand-in for a PostgreSQL server: the rows of pg_extension as pairs of
    extname and extversion, and the error (or nil) it answers every command
    with.  A query is a lookup of its first parameter among the rows. *)

Module fake.

Record PG : Type := mkPG {
  pg_extension : list (string * string);
  execError : option error
}.

Fixpoint lookup (name : string) (rows : list (string * string)) : option string :=
  match rows with
  | [] => None
  | (n, v) :: rest => if String.eqb n name then Some v else lookup name rest
  end.

Definition scan (q : Query) (dest : string) (pg : PG) : (option error * string) * PG :=
  match Parameters q with
  | name :: _ =>
      match lookup name (pg_extension pg) with
      | Some v => ((None, v), pg)
      | None => ((Some ErrNoRows, dest), pg)
      end
  | [] => ((Some (New "missing parameter"), dest), pg)
  end.

#[export] Instance PG_DB : DB PG := {
  Exec q pg := (execError pg, pg);
  Scan := scan
}.

End fake.
Import fake.

(** ** Reading a command back

    What the server makes of a command string, as far as these commands go:
    words separated by spaces, and quoted identifiers.  A quoted identifier
    opens with a double quote and runs to the next double quote that is not
    itself followed by a double quote; two double quotes in a row stand for
    one double quote of the name.  A command whose last quoted identifier is
    never closed has no reading. *)

Module sql.

Inductive Token : Type :=
| Word : string -> Token
| QuotedIdent : string -> Token.

Inductive Mode : Type :=
| Idle : Mode
| InWord : string -> Mode
| InQuoted : string -> Mode
| AfterQuote : string -> Mode.

Definition space : ascii := " "%char.

Definition snoc (s : string) (c : ascii) : string := s ++ String c "".

Definition emit (t : Token) (r : option (list Token)) : option (list Token) :=
  option_map (cons t) r.

Fixpoint lexFrom (m : Mode) (s : string) : option (list Token) :=
  match s with
  | EmptyString =>
      match m with
      | Idle => Some []
      | InWord w => Some [Word w]
      | InQuoted _ => None
      | AfterQuote n => Some [QuotedIdent n]
      end
  | String c rest =>
      match m with
      | Idle =>
          if Ascii.eqb c space then lexFrom Idle rest
          else if Ascii.eqb c strings.dquote then lexFrom (InQuoted "") rest
          else lexFrom (InWord (String c "")) rest
      | InWord w =>
          if Ascii.eqb c space then emit (Word w) (lexFrom Idle rest)
          else if Ascii.eqb c strings.dquote then emit (Word w) (lexFrom (InQuoted "") rest)
          else lexFrom (InWord (snoc w c)) rest
      | InQuoted n =>
          if Ascii.eqb c strings.dquote then lexFrom (AfterQuote n) rest
          else lexFrom (InQuoted (snoc n c)) rest
      | AfterQuote n =>
          if Ascii.eqb c strings.dquote then lexFrom (InQuoted (snoc n c)) rest
          else if Ascii.eqb c space then emit (QuotedIdent n) (lexFrom Idle rest)
          else emit (QuotedIdent n) (lexFrom (InWord (String c "")) rest)
      end
  end.

Definition tokens (command : string) : option (list Token) := lexFrom Idle command.

Definition isQuotedIdent (t : Token) : bool :=
  match t with
  | QuotedIdent _ => true
  | Word _ => false
  end.

(** The extension a CREATE EXTENSION or DROP EXTENSION command names: the
    quoted identifier right after its two leading words, if there is one. *)
Definition extensionNamed (command : string) : option string :=
  match tokens command with
  | Some (Word _ :: Word _ :: QuotedIdent n :: _) => Some n
  | _ => None
  end.

(** The number of double quotes a string starts with. *)
Fixpoint leadingQuotes (s : string) : nat :=
  match s with
  | EmptyString => 0
  | String c rest =>
      if Ascii.eqb c strings.dquote then S (leadingQuotes rest) else 0
  end.

(** The number of quoted identifiers in a command. *)
Definition quotedIdents (command : string) : nat :=
  match tokens command with
  | Some ts => length (filter isQuotedIdent ts)
  | None => 0
  end.

End sql.

(** The tokens Create's command is expected to read as. *)
Definition createTokens (p : ExtensionParameters) : list sql.Token :=
  [sql.Word "CREATE"; sql.Word "EXTENSION"]
  ++ (if String.eqb (Extension p) "" then []
      else [sql.QuotedIdent (strings.UntilNul (Extension p))])
  ++ match Version p with
     | Some v => [sql.Word "VERSION"; sql.QuotedIdent (strings.UntilNul v)]
     | None => []
     end.

(** ** Values used in the examples *)

Module examples.

(** foo, a double quote, bar *)
Definition fooQuoteBar : string := "foo" ++ String strings.dquote "bar".

(** a, a zero byte, b *)
Definition aNulB : string := String "a"%char (String strings.nul "b").

Definition pgcrypto (version : option string) : ExtensionParameters :=
  mkExtensionParameters "pgcrypto" version None.

Definition pgcryptoCR : v1alpha1.Extension :=
  v1alpha1.mkExtension "pgcrypto" (pgcrypto None) [].

Definition ext1CR : v1alpha1.Extension :=
  v1alpha1.mkExtension "ext1" (mkExtensionParameters "ext1" (Some "2.0") None) [].

(** A resource whose external name is a, a zero byte, b and whose desired
    name is a. *)
Definition nulCR : v1alpha1.Extension :=
  v1alpha1.mkExtension aNulB (mkExtensionParameters "a" None None) [].

(** Desired parameters with no name and version 1.0. *)
Definition unnamedVersioned : ExtensionParameters :=
  mkExtensionParameters "" (Some "1.0") None.

(** Desired parameters with nothing set, and the parameters Observe builds
    from a row of version 1.2: the name left empty. *)
Definition unset : ExtensionParameters := mkExtensionParameters "" None None.
Definition observed12 : ExtensionParameters :=
  mkExtensionParameters "" (Some "1.2") None.

(** A server on which pgcrypto 1.3 is installed and every command succeeds. *)
Definition withPgcrypto : PG := mkPG [("pgcrypto", "1.3")] None.

(** A server with no extension installed, on which every command fails. *)
Definition failing : PG := mkPG [] (Some (New "connection refused")).

Definition start (cr : v1alpha1.Extension) (pg : PG) : State PG :=
  mkState (MgExtension cr) pg [].

End examples.

(** The queries the entry points hand to the executor for a resource. *)
Definition scanQuery (cr : v1alpha1.Extension) : Query :=
  mkQuery selectQuery [meta.GetExternalName cr].
Definition createQuery (cr : v1alpha1.Extension) : Query :=
  mkQuery (createCommand (v1alpha1.ForProvider cr)) [].
Definition dropQuery (cr : v1alpha1.Extension) : Query :=
  mkQuery (dropCommand cr) [].

(** The state an entry point starts in when it is handed the Extension [cr]. *)
Definition handed {H : Type} (cr : v1alpha1.Extension) (h : H) (tr : list Event)
  : State H :=
  mkState (MgExtension cr) h tr.

(** [withTemplate t p] is [p] with its template replaced by [t]. *)
Definition withTemplate (t : option string) (p : ExtensionParameters)
  : ExtensionParameters :=
  mkExtensionParameters (Extension p) (Version p) t.

(** ** The connector

    Connect resolves the credentials of a resource and hands back the
    external client.  It reads the cluster through a client, records the use
    of the provider configuration through a tracker and opens the database
    with newDB. *)

Definition errTrackPCUsage : string := "cannot track ProviderConfig usage".
Definition errGetPC : string := "cannot get ProviderConfig".
Definition errNoSecretRef : string := "ProviderConfig does not reference a credentials Secret".
Definition errGetSecret : string := "cannot get credentials Secret".

Module types.

(** types.NamespacedName *)
Record NamespacedName : Type := mkNamespacedName {
  Namespace : string;
  Name : string
}.

End types.

Module cluster.

(** xpv1.SecretReference: the namespace and the name of a Secret. *)
Record SecretReference : Type := mkSecretReference {
  RefNamespace : string;
  RefName : string
}.

(** v1alpha1.ProviderConfig, as far as Connect reads it: the field
    Spec.Credentials.ConnectionSecretRef, a pointer that may be nil. *)
Record ProviderConfig : Type := mkProviderConfig {
  ConnectionSecretRef : option SecretReference
}.

(** corev1.Secret, as far as Connect reads it: its Data, a map from keys to
    bytes that Connect passes on untouched. *)
Record Secret : Type := mkSecret {
  Data : list (string * string)
}.

(** client.Client, over the type [K] of the state behind it.  The Go method
    Get(ctx, key, obj) fills the object it is given; it is called here on a
    ProviderConfig and on a Secret, each given with its value before the call
    and returned with its value after the call. *)
Class Client (K : Type) : Type := {
  GetProviderConfig :
    types.NamespacedName -> ProviderConfig -> K -> (option error * ProviderConfig) * K;
  GetSecret :
    types.NamespacedName -> Secret -> K -> (option error * Secret) * K
}.

(** resource.Tracker, over the type [U] of the state behind it. *)
Class Tracker (U : Type) : Type := {
  Track : Managed -> U -> option error * U
}.

End cluster.
Import cluster.

(** What Connect did, in order. *)
Inductive ConnectEvent : Type :=
| Tracked : Managed -> ConnectEvent
| GotProviderConfig : types.NamespacedName -> ConnectEvent
| GotSecret : types.NamespacedName -> ConnectEvent
| OpenedDB : list (string * string) -> ConnectEvent.

Section Connector.

Context {K U H : Type} `{Client K} `{Tracker U}.

(** cr.GetProviderConfigReference(), reduced to the name of the reference:
    [None] is the nil pointer.  The resource type of this development does
    not carry the reference, so the accessor is taken as given. *)
Variable GetProviderConfigReference : v1alpha1.Extension -> option string.

(** The connector struct. *)
Record connector : Type := mkConnector {
  kube : K;
  usage : U;
  newDB : list (string * string) -> H
}.

(** The connector together with the record of what Connect did. *)
Record ConnectState : Type := mkConnectState {
  self : connector;
  did : list ConnectEvent
}.

(** What a call of Connect comes to: it returns a client (the external
    struct, which holds nothing but the database handle) and an error, or it
    dereferences a nil pointer and panics. *)
Inductive Connected : Type :=
| Returned : option H -> option error -> Connected
| NilDereference : Connected.

Definition Connect (mg : Managed) (c : ConnectState) : Connected * ConnectState :=
  match mg with
  | MgOther _ => (Returned None (Some (New errNotExtension)), c)
  | MgExtension cr =>
      let '(err, u) := Track mg (usage (self c)) in
      let c := mkConnectState (mkConnector (kube (self c)) u (newDB (self c)))
                 (did c ++ [Tracked mg]) in
      match err with
      | Some _ => (Returned None (Wrap err errTrackPCUsage), c)
      | None =>
          (* The name of the reference is read before Get is called: a nil
             reference panics here. *)
          match GetProviderConfigReference cr with
          | None => (NilDereference, c)
          | Some name =>
              let pc := mkProviderConfig None in
              let key := types.mkNamespacedName "" name in
              let '((err, pc), k) := GetProviderConfig key pc (kube (self c)) in
              let c := mkConnectState (mkConnector k (usage (self c)) (newDB (self c)))
                         (did c ++ [GotProviderConfig key]) in
              match err with
              | Some _ => (Returned None (Wrap err errGetPC), c)
              | None =>
                  let ref := ConnectionSecretRef pc in
                  match ref with
                  | None => (Returned None (Some (New errNoSecretRef)), c)
                  | Some ref =>
                      let s := mkSecret [] in
                      let key := types.mkNamespacedName (RefNamespace ref) (RefName ref) in
                      let '((err, s), k) := GetSecret key s (kube (self c)) in
                      let c := mkConnectState
                                 (mkConnector k (usage (self c)) (newDB (self c)))
                                 (did c ++ [GotSecret key]) in
                      match err with
                      | Some _ => (Returned None (Wrap err errGetSecret), c)
                      | None =>
                          (Returned (Some (newDB (self c) (Data s))) None,
                           mkConnectState (self c) (did c ++ [OpenedDB (Data s)]))
                      end
                  end
              end
          end
      end
  end.

End Connector.

Arguments connector K U H : clear implicits.
Arguments ConnectState K U H : clear implicits.
Arguments Connected H : clear implicits.

(** The labels an error of Connect can carry, and those an error of the
    external client can carry. *)
Definition connectLabels : list string :=
  [errNotExtension; errTrackPCUsage; errGetPC; errNoSecretRef; errGetSecret].
Definition externalLabels : list string :=
  [errNotExtension; errSelectExtension; errCreateExtension; errDropExtension].

(** Whether the message of [err] starts with one of [labels]. *)
Definition labelled (labels : list string) (err : error) : bool :=
  existsb (strings.HasPrefix (Error err)) labels.

(** ** A cluster for examples

    Provider configurations by name and secrets by namespace and name; an
    object that is not there is an error, and the object handed to Get is
    then left as it was.  The tracker answers every call with the same
    error or nil and counts the usages it has recorded. *)

Module fakecluster.

Record Objects : Type := mkObjects {
  providerConfigs : list (string * ProviderConfig);
  secrets : list ((string * string) * Secret)
}.

Fixpoint findProviderConfig (name : string) (l : list (string * ProviderConfig))
  : option ProviderConfig :=
  match l with
  | [] => None
  | (n, pc) :: rest => if String.eqb n name then Some pc else findProviderConfig name rest
  end.

Fixpoint findSecret (ns name : string) (l : list ((string * string) * Secret))
  : option Secret :=
  match l with
  | [] => None
  | ((n1, n2), s) :: rest =>
      if String.eqb n1 ns && String.eqb n2 name then Some s else findSecret ns name rest
  end.

#[export] Instance Objects_Client : Client Objects := {
  GetProviderConfig key pc o :=
    match findProviderConfig (types.Name key) (providerConfigs o) with
    | Some found => ((None, found), o)
    | None => ((Some (New "not found"), pc), o)
    end;
  GetSecret key s o :=
    match findSecret (types.Namespace key) (types.Name key) (secrets o) with
    | Some found => ((None, found), o)
    | None => ((Some (New "not found"), s), o)
    end
}.

Record Usages : Type := mkUsages {
  trackError : option error;
  recorded : nat
}.

#[export] Instance Usages_Tracker : Tracker Usages := {
  Track mg u :=
    match trackError u with
    | Some e => (Some e, u)
    | None => (None, mkUsages None (S (recorded u)))
    end
}.

(** A cluster with the provider configuration default, which references
    the secret db-conn of the namespace crossplane-system, and a provider
    configuration bare with no reference. *)
Definition objects : Objects :=
  mkObjects
    [("default", mkProviderConfig (Some (mkSecretReference "crossplane-system" "db-conn")));
     ("bare", mkProviderConfig None)]
    [(("crossplane-system", "db-conn"), mkSecret [("username", "postgres")])].

(** newDB for the examples: a server with no extension installed. *)
Definition open (creds : list (string * string)) : PG := mkPG [] None.

(** A connector on that cluster whose tracker answers [trackErr]. *)
Definition start (trackErr : option error) : ConnectState Objects Usages PG :=
  mkConnectState (mkConnector objects (mkUsages trackErr 0) open) [].

End fakecluster.
Import fakecluster.

(** ** More values for the examples *)

Module unreachable.

(** A server that cannot be reached: every command and every query fails
    with the same error, which is not a no-rows error, and a query leaves its
    destination as it was. *)
Record Server : Type := mkServer {
  reason : string
}.

#[export] Instance Server_DB : DB Server := {
  Exec q srv := (Some (New (reason srv)), srv);
  Scan q dest srv := ((Some (New (reason srv)), dest), srv)
}.

Definition refused : Server := mkServer "connection refused".

End unreachable.
Import unreachable.

Module references.

(** Resources that reference the provider configuration default, the
    provider configuration bare, a provider configuration that does not
    exist, and no provider configuration at all. *)
Definition toDefault (cr : v1alpha1.Extension) : option string := Some "default".
Definition toBare (cr : v1alpha1.Extension) : option string := Some "bare".
Definition toMissing (cr : v1alpha1.Extension) : option string := Some "missing".
Definition toNothing (cr : v1alpha1.Extension) : option string := None.

(** The Extension pgcrypto with the desired version 1.0. *)
Definition pinnedCR : v1alpha1.Extension :=
  v1alpha1.mkExtension "pgcrypto" (examples.pgcrypto (Some "1.0")) [].

End references.


(** Splits a call of Connect into its cases: the kind of the resource, the
    answer of the tracker, the reference, the two answers of the client. *)
Ltac connect_cases getRef mg c :=
  unfold Connect;
  destruct mg as [?cr | ?kind]; cbn [kube usage self newDB did fst snd];
  [ destruct (Track (MgExtension cr) (usage (self c))) as [[?e|] ?u] eqn:?Htrack;
    cbn [kube usage self newDB did fst snd];
    [ | destruct (getRef cr) as [?name|] eqn:?Href;
        cbn [kube usage self newDB did fst snd];
        [ destruct (GetProviderConfig _ _ (kube (self c))) as [[[?e|] ?pc] ?k] eqn:?Hpc;
          cbn [kube usage self newDB did fst snd];
          [ | destruct (ConnectionSecretRef pc) as [?ref|] eqn:?Hsecretref;
              cbn [kube usage self newDB did fst snd];
              [ destruct (GetSecret _ _ k) as [[[?e|] ?s] ?k'] eqn:?Hsecret;
                cbn [kube usage self newDB did fst snd]
              | ] ]
        | ] ]
  | ].



(** * Properties *)

(** ** Strings *)

Lemma append_assoc (a b c : string) : ((a ++ b) ++ c = a ++ (b ++ c))%string.
Proof.
  induction a as [|x a IH]; simpl; [reflexivity | now rewrite IH].
Qed.

Lemma append_empty_r (a : string) : (a ++ "" = a)%string.
Proof.
  induction a as [|x a IH]; simpl; [reflexivity | now rewrite IH].
Qed.

Lemma HasPrefix_append (p s : string) : strings.HasPrefix (p ++ s) p = true.
Proof.
  induction p as [|c p IH]; simpl; [reflexivity |].
  now rewrite Ascii.eqb_refl, IH.
Qed.

Lemma Contains_append (p s : string) : strings.Contains (p ++ s) p = true.
Proof.
  destruct p as [|c p]; [destruct s; reflexivity |].
  change (strings.Contains (String c p ++ s) (String c p))
    with (strings.HasPrefix (String c p ++ s) (String c p)
          || strings.Contains (p ++ s) (String c p)).
  now rewrite HasPrefix_append.
Qed.

(** ** Reading back what QuoteIdentifier writes *)

Lemma lexFrom_DoubleQuotes (t acc rest : string) :
  sql.lexFrom (sql.InQuoted acc) (strings.DoubleQuotes t ++ rest)
  = sql.lexFrom (sql.InQuoted (acc ++ t)) rest.
Proof.
  revert acc; induction t as [|c t IH]; intros acc.
  - now rewrite append_empty_r.
  - simpl strings.DoubleQuotes.
    destruct (Ascii.eqb c strings.dquote) eqn:Hc.
    + apply Ascii.eqb_eq in Hc; subst c.
      cbn [append sql.lexFrom]. rewrite !Ascii.eqb_refl.
      rewrite IH. unfold sql.snoc. now rewrite append_assoc.
    + cbn [append sql.lexFrom]. rewrite Hc.
      rewrite IH. unfold sql.snoc. now rewrite append_assoc.
Qed.

Lemma lexFrom_QuoteIdentifier (name rest : string) :
  sql.lexFrom sql.Idle (pq.QuoteIdentifier name ++ rest)
  = sql.lexFrom (sql.AfterQuote (strings.UntilNul name)) rest.
Proof.
  unfold pq.QuoteIdentifier.
  cbn [append]. rewrite append_assoc.
  cbn [sql.lexFrom].
  replace (Ascii.eqb strings.dquote sql.space) with false by reflexivity.
  rewrite Ascii.eqb_refl.
  rewrite lexFrom_DoubleQuotes.
  cbn [append sql.lexFrom]. now rewrite Ascii.eqb_refl.
Qed.

Lemma append_inv_head (p a b : string) : (p ++ a = p ++ b -> a = b)%string.
Proof.
  induction p as [|c p IH]; simpl; [trivial |].
  intros E; injection E as E. now apply IH.
Qed.

Lemma leadingQuotes_UntilNul (name : string) :
  sql.leadingQuotes (strings.UntilNul name) = sql.leadingQuotes name.
Proof.
  induction name as [|c name IH]; [reflexivity |].
  cbn [strings.UntilNul sql.leadingQuotes].
  destruct (Ascii.eqb c strings.nul) eqn:Hc.
  - apply Ascii.eqb_eq in Hc; subst c. reflexivity.
  - cbn [sql.leadingQuotes]. now rewrite IH.
Qed.

Lemma leadingQuotes_DoubleQuotes (t rest : string) :
  2 * sql.leadingQuotes t <= sql.leadingQuotes (strings.DoubleQuotes t ++ rest).
Proof.
  induction t as [|c t IH]; [simpl; lia |].
  cbn [strings.DoubleQuotes sql.leadingQuotes].
  destruct (Ascii.eqb c strings.dquote) eqn:Hc.
  - cbn [append sql.leadingQuotes]. rewrite !Ascii.eqb_refl. lia.
  - lia.
Qed.

(** What QuoteIdentifier returns is never the name it was given: it starts
    with more double quotes than the name does. *)
Lemma QuoteIdentifier_not_verbatim (name : string) :
  pq.QuoteIdentifier name <> name.
Proof.
  intros E.
  assert (Hlead : sql.leadingQuotes (pq.QuoteIdentifier name)
                  = sql.leadingQuotes name) by now rewrite E.
  unfold pq.QuoteIdentifier in Hlead. cbn [sql.leadingQuotes] in Hlead.
  rewrite Ascii.eqb_refl in Hlead.
  pose proof (leadingQuotes_DoubleQuotes (strings.UntilNul name)
                (String strings.dquote "")) as Hle.
  rewrite leadingQuotes_UntilNul in Hle. lia.
Qed.

Lemma tokens_QuoteIdentifier (name : string) :
  sql.tokens (pq.QuoteIdentifier name)
  = Some [sql.QuotedIdent (strings.UntilNul name)].
Proof.
  unfold sql.tokens.
  rewrite <- (append_empty_r (pq.QuoteIdentifier name)).
  now rewrite lexFrom_QuoteIdentifier.
Qed.

Lemma lexFrom_create (rest : string) :
  sql.lexFrom sql.Idle ("CREATE EXTENSION " ++ rest)
  = sql.emit (sql.Word "CREATE")
      (sql.emit (sql.Word "EXTENSION") (sql.lexFrom sql.Idle rest)).
Proof. reflexivity. Qed.

Lemma lexFrom_drop (rest : string) :
  sql.lexFrom sql.Idle ("DROP EXTENSION " ++ rest)
  = sql.emit (sql.Word "DROP")
      (sql.emit (sql.Word "EXTENSION") (sql.lexFrom sql.Idle rest)).
Proof. reflexivity. Qed.

Lemma lexFrom_version (rest : string) :
  sql.lexFrom sql.Idle (" VERSION " ++ rest)
  = sql.emit (sql.Word "VERSION") (sql.lexFrom sql.Idle rest).
Proof. reflexivity. Qed.

Lemma lexFrom_name_version (n rest : string) :
  sql.lexFrom (sql.AfterQuote n) (" VERSION " ++ rest)
  = sql.emit (sql.QuotedIdent n)
      (sql.emit (sql.Word "VERSION") (sql.lexFrom sql.Idle rest)).
Proof. reflexivity. Qed.

Lemma tokens_createCommand (p : ExtensionParameters) :
  sql.tokens (createCommand p) = Some (createTokens p).
Proof.
  unfold sql.tokens, createCommand, createTokens.
  destruct p as [name version template]; cbn [Extension Version].
  destruct (String.eqb name "") eqn:Hn; destruct version as [v|]; cbn [negb app].
  - rewrite append_assoc, lexFrom_create, lexFrom_version.
    fold (sql.tokens (pq.QuoteIdentifier v)). now rewrite tokens_QuoteIdentifier.
  - reflexivity.
  - rewrite !append_assoc, lexFrom_create, lexFrom_QuoteIdentifier.
    rewrite lexFrom_name_version.
    fold (sql.tokens (pq.QuoteIdentifier v)). now rewrite tokens_QuoteIdentifier.
  - rewrite lexFrom_create.
    fold (sql.tokens (pq.QuoteIdentifier name)). now rewrite tokens_QuoteIdentifier.
Qed.

Lemma tokens_dropCommand (cr : v1alpha1.Extension) :
  sql.tokens (dropCommand cr)
  = Some [sql.Word "DROP"; sql.Word "EXTENSION";
          sql.QuotedIdent (strings.UntilNul (v1alpha1.ExternalName cr))].
Proof.
  unfold sql.tokens, dropCommand, meta.GetExternalName.
  rewrite lexFrom_drop.
  fold (sql.tokens (pq.QuoteIdentifier (v1alpha1.ExternalName cr))).
  now rewrite tokens_QuoteIdentifier.
Qed.

Lemma UntilNul_no_nul (s : string) :
  strings.HasByte strings.nul s = false -> strings.UntilNul s = s.
Proof.
  induction s as [|c s IH]; simpl; [reflexivity |].
  destruct (Ascii.eqb c strings.nul); simpl; [discriminate |].
  intros Hs. now rewrite IH.
Qed.

Lemma extensionNamed_createCommand (p : ExtensionParameters) :
  sql.extensionNamed (createCommand p)
  = if String.eqb (Extension p) "" then None
    else Some (strings.UntilNul (Extension p)).
Proof.
  unfold sql.extensionNamed. rewrite tokens_createCommand. unfold createTokens.
  destruct (String.eqb (Extension p) ""); destruct (Version p); reflexivity.
Qed.

Lemma extensionNamed_dropCommand (cr : v1alpha1.Extension) :
  sql.extensionNamed (dropCommand cr)
  = Some (strings.UntilNul (v1alpha1.ExternalName cr)).
Proof.
  unfold sql.extensionNamed. now rewrite tokens_dropCommand.
Qed.

(** ** The merger *)

Lemma lateInit_unfold (observed desired : ExtensionParameters) :
  lateInit observed desired
  = (String.eqb (Extension desired) "" || match Version desired with None => true | Some _ => false end,
     mkExtensionParameters
       (if String.eqb (Extension desired) "" then Extension observed else Extension desired)
       (match Version desired with None => Version observed | Some v => Some v end)
       (Template desired)).
Proof.
  unfold lateInit. destruct desired as [n [v|] t]; cbn;
    destruct (String.eqb n ""); reflexivity.
Qed.

Lemma merged_name_unset (n on : string) :
  String.eqb (if String.eqb n "" then on else n) "" = true <-> n = "" /\ on = "".
Proof.
  destruct (String.eqb n "") eqn:Hn.
  - apply String.eqb_eq in Hn. rewrite String.eqb_eq. split; [now split | now intros [_ Hon]].
  - rewrite Hn. apply String.eqb_neq in Hn.
    split; [discriminate | intros [Hx _]; contradiction].
Qed.

Lemma merged_version_unset (v ov : option string) :
  match (match v with None => ov | Some x => Some x end) with
  | None => true
  | Some _ => false
  end = true
  <-> v = None /\ ov = None.
Proof.
  destruct v as [v|], ov as [ov|]; split; try discriminate;
    try (intros [Hx Hy]; discriminate); now split.
Qed.

(** C2, as the claim states its second half, fails: with the observed name
    left empty (as Observe leaves it) and a desired name that is empty too,
    the first call of lateInit returns true and so does the second. *)
Lemma lateInit_second_call_true_again :
  fst (lateInit examples.observed12 examples.unset) = true
  /\ fst (lateInit examples.observed12
            (snd (lateInit examples.observed12 examples.unset))) = true.
Proof. split; reflexivity. Qed.

(** C2, amended: lateInit returns true if and only if a desired field was
    unset before the call, and every such field is assigned the observed
    value.  A second call on the merged parameters changes nothing.  It
    returns false exactly when the name is set in the desired or in the
    observed parameters and the version is set in the desired or in the
    observed parameters; it returns true again exactly when a field is unset
    in both. *)
Theorem lateInit_flag_and_second_call (observed desired : ExtensionParameters) :
  (fst (lateInit observed desired) = true
   <-> Extension desired = "" \/ Version desired = None)
  /\ (Extension desired = ""
      -> Extension (snd (lateInit observed desired)) = Extension observed)
  /\ (Version desired = None
      -> Version (snd (lateInit observed desired)) = Version observed)
  /\ snd (lateInit observed (snd (lateInit observed desired)))
     = snd (lateInit observed desired)
  /\ (fst (lateInit observed (snd (lateInit observed desired))) = false
      <-> (Extension desired <> "" \/ Extension observed <> "")
          /\ (Version desired <> None \/ Version observed <> None))
  /\ (fst (lateInit observed (snd (lateInit observed desired))) = true
      <-> (Extension desired = "" /\ Extension observed = "")
          \/ (Version desired = None /\ Version observed = None)).
Proof.
  rewrite !lateInit_unfold; cbn [fst snd Extension Version Template].
  destruct desired as [n v t], observed as [on ov ot]; cbn [Extension Version Template].
  split; [| split; [| split; [| split; [| split]]]].
  - rewrite orb_true_iff, String.eqb_eq.
    destruct v; split; intros [Hn | Hv]; auto; discriminate.
  - intros ->. reflexivity.
  - intros ->. reflexivity.
  - destruct (String.eqb n "") eqn:Hn; destruct v as [v|], ov as [ov|];
      cbn [orb]; rewrite ?Hn; destruct (String.eqb on ""); reflexivity.
  - rewrite <- not_true_iff_false, orb_true_iff,
      merged_name_unset, merged_version_unset.
    destruct (string_dec n "") as [Hn | Hn], (string_dec on "") as [Hon | Hon];
      destruct v as [v|], ov as [ov|];
      intuition (try congruence; try discriminate).
  - now rewrite orb_true_iff, merged_name_unset, merged_version_unset.
Qed.

Lemma lateInit_flag_and_second_call_witness :
  (Extension (examples.pgcrypto None) = "" \/ Version (examples.pgcrypto None) = None)
  /\ (Extension (examples.pgcrypto None) <> "" \/ Extension examples.observed12 <> "")
  /\ (Version (examples.pgcrypto None) <> None \/ Version examples.observed12 <> None)
  /\ fst (lateInit examples.observed12 (examples.pgcrypto None)) = true
  /\ snd (lateInit examples.observed12 (examples.pgcrypto None))
     = examples.pgcrypto (Some "1.2")
  /\ fst (lateInit examples.observed12
            (snd (lateInit examples.observed12 (examples.pgcrypto None))))
     = false.
Proof.
  pose proof (lateInit_flag_and_second_call
                examples.observed12 (examples.pgcrypto None))
    as [Hflag [_ [_ [_ [Hsecond _]]]]].
  split; [now right |].
  split; [left; discriminate |].
  split; [right; discriminate |].
  split; [apply Hflag; now right |].
  split; [reflexivity |].
  apply Hsecond. split; [left; discriminate | right; discriminate].
Defined.

(** C5: lateInit never overwrites a desired field that is already set: a
    desired name that is not empty and a desired version that is not nil are
    the same after the call, whatever was observed; the template is never
    touched. *)
Theorem lateInit_keeps_set_fields (observed desired : ExtensionParameters) :
  (Extension desired <> ""
   -> Extension (snd (lateInit observed desired)) = Extension desired)
  /\ (Version desired <> None
      -> Version (snd (lateInit observed desired)) = Version desired)
  /\ Template (snd (lateInit observed desired)) = Template desired.
Proof.
  rewrite lateInit_unfold; cbn [snd Extension Version Template].
  repeat split.
  - intros Hn. destruct (String.eqb (Extension desired) "") eqn:E; [| reflexivity].
    apply String.eqb_eq in E; contradiction.
  - intros Hv. destruct (Version desired); [reflexivity | contradiction].
Qed.

Lemma lateInit_keeps_set_fields_witness :
  Extension (examples.pgcrypto (Some "1.3")) <> ""
  /\ Version (examples.pgcrypto (Some "1.3")) <> None
  /\ snd (lateInit (mkExtensionParameters "hstore" (Some "1.2") (Some "t"))
            (examples.pgcrypto (Some "1.3")))
     = examples.pgcrypto (Some "1.3").
Proof.
  pose proof (lateInit_keeps_set_fields
                (mkExtensionParameters "hstore" (Some "1.2") (Some "t"))
                (examples.pgcrypto (Some "1.3"))) as [Hn [Hv Ht]].
  split; [discriminate |]. split; [discriminate |].
  reflexivity.
Defined.

(** ** The comparator *)

Lemma option_string_eqb_refl (a : option string) : option_string_eqb a a = true.
Proof. destruct a; simpl; [apply String.eqb_refl | reflexivity]. Qed.

(** C6: upToDate is reflexive, and it is true of any two parameter values
    that agree on name and version, whatever their templates. *)
Theorem upToDate_refl_ignores_Template :
  (forall x : ExtensionParameters, upToDate x x = true)
  /\ (forall x y : ExtensionParameters,
        Extension x = Extension y -> Version x = Version y ->
        upToDate x y = true)
  /\ (forall (x : ExtensionParameters) (t u : option string),
        upToDate (withTemplate t x) (withTemplate u x) = true).
Proof.
  assert (Hxy : forall x y : ExtensionParameters,
             Extension x = Extension y -> Version x = Version y ->
             upToDate x y = true).
  { intros x y Hn Hv. unfold upToDate. rewrite Hn, Hv.
    now rewrite String.eqb_refl, option_string_eqb_refl. }
  repeat split.
  - intros x. now apply Hxy.
  - exact Hxy.
  - intros x t u. now apply Hxy.
Qed.

Lemma upToDate_refl_ignores_Template_witness :
  Extension (examples.pgcrypto (Some "1.3"))
  = Extension (withTemplate (Some "template0") (examples.pgcrypto (Some "1.3")))
  /\ Version (examples.pgcrypto (Some "1.3"))
     = Version (withTemplate (Some "template0") (examples.pgcrypto (Some "1.3")))
  /\ upToDate (examples.pgcrypto (Some "1.3"))
       (withTemplate (Some "template0") (examples.pgcrypto (Some "1.3"))) = true.
Proof.
  split; [reflexivity |]. split; [reflexivity |].
  apply (proj1 (proj2 upToDate_refl_ignores_Template)); reflexivity.
Defined.

(** ** The entry points *)

Section Driver.

Context {H : Type} {D : DB H}.

Variable cr : v1alpha1.Extension.
Variable h : H.
Variable tr : list Event.

Lemma Create_runs :
  Create (handed cr h tr)
  = ((mkExternalCreation, Wrap (fst (Exec (createQuery cr) h)) errCreateExtension),
     handed cr (snd (Exec (createQuery cr) h)) (tr ++ [DBExec (createQuery cr)])).
Proof.
  unfold handed, createQuery. run. now destruct (Exec _ h).
Qed.

Lemma Delete_runs :
  Delete (handed cr h tr)
  = (Wrap (fst (Exec (dropQuery cr) h)) errDropExtension,
     handed cr (snd (Exec (dropQuery cr) h)) (tr ++ [DBExec (dropQuery cr)])).
Proof.
  unfold handed, dropQuery. run. now destruct (Exec _ h).
Qed.

Lemma Observe_scans_first :
  exists rest,
    calls (snd (Observe (handed cr h tr))) = (tr ++ DBScan (scanQuery cr) :: rest)%list.
Proof.
  unfold handed, scanQuery. run.
  destruct (Scan _ "" h) as [[err v] h'].
  destruct (IsNoRows err); [now exists [] |].
  destruct err; run.
  - now exists [].
  - destruct (lateInit _ _) as [li desired]. run.
    exists [CalledLateInit; CalledUpToDate].
    now rewrite <- !app_assoc.
Qed.

(** When the row is found, Observe compares the desired parameters with
    observed parameters whose name is empty: with a desired name that is
    not empty it reports the resource as not up to date. *)
Lemma Observe_found_not_up_to_date (v : string) (h' : H) :
  Scan (scanQuery cr) "" h = ((None, v), h') ->
  Extension (v1alpha1.ForProvider cr) <> "" ->
  fst (Observe (handed cr h tr))
  = (mkExternalObservation true false
       (match Version (v1alpha1.ForProvider cr) with None => true | Some _ => false end),
     None).
Proof.
  intros Hscan Hname. unfold handed, scanQuery in *. run. rewrite Hscan. cbn [IsNoRows].
  run. rewrite lateInit_unfold. run.
  assert (E : String.eqb (Extension (v1alpha1.ForProvider cr)) "" = false).
  { destruct (String.eqb _ "") eqn:E; [| reflexivity].
    apply String.eqb_eq in E; contradiction. }
  unfold upToDate. cbn. rewrite E. cbn.
  destruct (Extension (v1alpha1.ForProvider cr)) eqn:En; [contradiction |].
  reflexivity.
Qed.

(** C7: when the lookup reports no matching row, Observe answers that the
    resource does not exist, with a nil error.  The only thing it has done
    is the lookup: neither the merger nor the comparator was called, and the
    resource, its desired parameters included, is as it was. *)
Theorem Observe_no_rows (err : option error) (dest : string) (h' : H) :
  Scan (scanQuery cr) "" h = ((err, dest), h') ->
  IsNoRows err = true ->
  Observe (handed cr h tr)
  = ((mkExternalObservation false false false, None),
     handed cr h' (tr ++ [DBScan (scanQuery cr)])).
Proof.
  intros Hscan Hno. unfold handed, scanQuery in *. run.
  rewrite Hscan, Hno. reflexivity.
Qed.

(** C8: Update on an Extension returns no error, hands nothing to the
    executor and leaves the resource, the database and the record of calls
    as they were. *)
Theorem Update_is_a_no_op :
  Update (handed cr h tr) = ((mkExternalUpdate, None), handed cr h tr).
Proof. unfold handed. run. reflexivity. Qed.

(** C9: Delete hands exactly one command to the executor, the drop command.
    When the executor succeeds Delete returns nil; when it fails Delete
    returns an error whose message is the label cannot drop extension
    followed by the executor's message, so the message contains the
    label. *)
Theorem Delete_one_command_labelled_error :
  calls (snd (Delete (handed cr h tr))) = (tr ++ [DBExec (dropQuery cr)])%list
  /\ (fst (Exec (dropQuery cr) h) = None -> fst (Delete (handed cr h tr)) = None)
  /\ (forall e : error,
        fst (Exec (dropQuery cr) h) = Some e ->
        exists e' : error,
          fst (Delete (handed cr h tr)) = Some e'
          /\ Error e' = errDropExtension ++ ": " ++ Error e
          /\ strings.Contains (Error e') errDropExtension = true).
Proof.
  rewrite Delete_runs; cbn [fst snd handed calls].
  split; [reflexivity |]. split.
  - intros ->. reflexivity.
  - intros e ->. exists (Wrapped e errDropExtension).
    split; [reflexivity |]. split; [reflexivity |].
    cbn [Error]. apply Contains_append.
Qed.

(** C3: the one command Create hands to the executor is the words CREATE
    EXTENSION followed by the desired name through QuoteIdentifier (when it
    is not empty) and by VERSION and the desired version through
    QuoteIdentifier (when it is set); the one command of Delete is DROP
    EXTENSION followed by the external name through QuoteIdentifier.
    Whatever bytes the name and the version hold, each reads back as a single
    quoted identifier between the fixed words, and what QuoteIdentifier
    writes is never the string it was given.  The name foo, double quote,
    bar does not occur verbatim in either command. *)
Theorem Create_Delete_quote_identifiers :
  calls (snd (Create (handed cr h tr))) = (tr ++ [DBExec (createQuery cr)])%list
  /\ calls (snd (Delete (handed cr h tr))) = (tr ++ [DBExec (dropQuery cr)])%list
  /\ String_ (createQuery cr)
     = "CREATE EXTENSION "
       ++ (if String.eqb (Extension (v1alpha1.ForProvider cr)) "" then ""
           else pq.QuoteIdentifier (Extension (v1alpha1.ForProvider cr)))
       ++ match Version (v1alpha1.ForProvider cr) with
          | Some v => " VERSION " ++ pq.QuoteIdentifier v
          | None => ""
          end
  /\ String_ (dropQuery cr)
     = "DROP EXTENSION " ++ pq.QuoteIdentifier (v1alpha1.ExternalName cr)
  /\ sql.tokens (String_ (createQuery cr))
     = Some (createTokens (v1alpha1.ForProvider cr))
  /\ sql.tokens (String_ (dropQuery cr))
     = Some [sql.Word "DROP"; sql.Word "EXTENSION";
             sql.QuotedIdent (strings.UntilNul (v1alpha1.ExternalName cr))]
  /\ (forall name : string, pq.QuoteIdentifier name <> name)
  /\ String_ (dropQuery cr) <> "DROP EXTENSION " ++ v1alpha1.ExternalName cr
  /\ sql.tokens (String_ (createQuery examples.ext1CR))
     = Some [sql.Word "CREATE"; sql.Word "EXTENSION"; sql.QuotedIdent "ext1";
             sql.Word "VERSION"; sql.QuotedIdent "2.0"]
  /\ strings.Contains
       (createCommand (mkExtensionParameters examples.fooQuoteBar (Some "2.0") None))
       examples.fooQuoteBar = false
  /\ strings.Contains
       (createCommand (mkExtensionParameters examples.fooQuoteBar None None))
       examples.fooQuoteBar = false
  /\ strings.Contains
       (dropCommand (v1alpha1.mkExtension examples.fooQuoteBar examples.unset []))
       examples.fooQuoteBar = false.
Proof.
  rewrite Create_runs, Delete_runs; cbn [fst snd handed calls String_ createQuery dropQuery].
  split; [reflexivity |]. split; [reflexivity |].
  split.
  { unfold createCommand.
    destruct (String.eqb (Extension (v1alpha1.ForProvider cr)) "");
      destruct (Version (v1alpha1.ForProvider cr)); cbn [negb];
      rewrite ?append_assoc, ?append_empty_r; reflexivity. }
  split; [reflexivity |].
  split; [apply tokens_createCommand |].
  split; [apply tokens_dropCommand |].
  split; [exact QuoteIdentifier_not_verbatim |].
  split.
  { unfold dropCommand, meta.GetExternalName. intros E.
    apply append_inv_head in E. now apply QuoteIdentifier_not_verbatim in E. }
  repeat split; vm_compute; reflexivity.
Qed.

(** C4: the template is consulted nowhere.  The comparator and the merger
    do not depend on it, as the claim says; but neither does Create, whose
    command and whose result are the same whatever the template is. *)
Theorem Template_is_never_consulted (t : option string) (observed : ExtensionParameters) :
  createCommand (withTemplate t (v1alpha1.ForProvider cr))
  = createCommand (v1alpha1.ForProvider cr)
  /\ fst (Create (handed (v1alpha1.SetForProvider
                            (withTemplate t (v1alpha1.ForProvider cr)) cr) h tr))
     = fst (Create (handed cr h tr))
  /\ calls (snd (Create (handed (v1alpha1.SetForProvider
                                   (withTemplate t (v1alpha1.ForProvider cr)) cr) h tr)))
     = calls (snd (Create (handed cr h tr)))
  /\ upToDate observed (withTemplate t (v1alpha1.ForProvider cr))
     = upToDate observed (v1alpha1.ForProvider cr)
  /\ upToDate (withTemplate t observed) (v1alpha1.ForProvider cr)
     = upToDate observed (v1alpha1.ForProvider cr)
  /\ lateInit (withTemplate t observed) (v1alpha1.ForProvider cr)
     = lateInit observed (v1alpha1.ForProvider cr)
  /\ fst (lateInit observed (withTemplate t (v1alpha1.ForProvider cr)))
     = fst (lateInit observed (v1alpha1.ForProvider cr))
  /\ snd (lateInit observed (withTemplate t (v1alpha1.ForProvider cr)))
     = withTemplate t (snd (lateInit observed (v1alpha1.ForProvider cr))).
Proof.
  assert (Hcmd : createCommand (withTemplate t (v1alpha1.ForProvider cr))
                 = createCommand (v1alpha1.ForProvider cr)) by reflexivity.
  split; [exact Hcmd |].
  unfold handed, createQuery. run.
  cbn [v1alpha1.ForProvider v1alpha1.SetForProvider]. rewrite Hcmd.
  destruct (Exec _ h) as [err h0]. cbn [fst snd calls].
  rewrite !lateInit_unfold.
  repeat split.
Qed.

End Driver.

Lemma Observe_no_rows_witness :
  Scan (scanQuery examples.pgcryptoCR) "" examples.failing
  = ((Some ErrNoRows, ""), examples.failing)
  /\ IsNoRows (Some ErrNoRows) = true
  /\ Observe (handed examples.pgcryptoCR examples.failing [])
     = ((mkExternalObservation false false false, None),
        handed examples.pgcryptoCR examples.failing
          [DBScan (scanQuery examples.pgcryptoCR)]).
Proof.
  split; [reflexivity |]. split; [reflexivity |].
  apply (Observe_no_rows examples.pgcryptoCR examples.failing []
           (Some ErrNoRows) "" examples.failing); reflexivity.
Defined.

Lemma Delete_one_command_labelled_error_witness :
  fst (Exec (dropQuery examples.pgcryptoCR) examples.failing)
  = Some (New "connection refused")
  /\ exists e' : error,
       fst (Delete (handed examples.pgcryptoCR examples.failing [])) = Some e'
       /\ Error e' = errDropExtension ++ ": " ++ "connection refused"
       /\ strings.Contains (Error e') errDropExtension = true.
Proof.
  split; [reflexivity |].
  apply (proj2 (proj2 (Delete_one_command_labelled_error
                         examples.pgcryptoCR examples.failing []))
           (New "connection refused")).
  reflexivity.
Defined.

(** ** The scenario of the specification *)

(** C1: Observe on the desired parameters pgcrypto with no version, against
    a server whose row for pgcrypto has version 1.3.  Observe finds the
    resource, late-initializes it and sets the desired version to 1.3, as the
    claim says.  But it reports the resource as not up to date: the observed
    parameters it compares with have an empty name, and the comparator is
    false on them, while it is true on the observed parameters the claim
    describes. *)
Theorem Observe_pgcrypto_scenario :
  Observe (handed examples.pgcryptoCR examples.withPgcrypto [])
  = ((mkExternalObservation true false true, None),
     handed
       (v1alpha1.mkExtension "pgcrypto" (examples.pgcrypto (Some "1.3"))
          [xpv1.Available])
       examples.withPgcrypto
       [DBScan (scanQuery examples.pgcryptoCR); CalledLateInit; CalledUpToDate])
  /\ upToDate (mkExtensionParameters "" (Some "1.3") None)
       (examples.pgcrypto (Some "1.3")) = false
  /\ upToDate (examples.pgcrypto (Some "1.3")) (examples.pgcrypto (Some "1.3"))
     = true.
Proof. repeat split. Qed.

(** ** Which extension a command names *)

(** C10, as the claim states it, fails twice.  An external name and a
    desired name that differ only after a zero byte are different names, yet
    Create and Delete name the same identifier.  And Create with an empty
    desired name and a version issues a command that does contain a quoted
    identifier, the version. *)
Lemma Create_Delete_same_identifier_quoted_version :
  v1alpha1.ExternalName examples.nulCR
  <> Extension (v1alpha1.ForProvider examples.nulCR)
  /\ sql.extensionNamed (String_ (createQuery examples.nulCR))
     = sql.extensionNamed (String_ (dropQuery examples.nulCR))
  /\ Extension examples.unnamedVersioned = ""
  /\ sql.tokens (createCommand examples.unnamedVersioned)
     = Some [sql.Word "CREATE"; sql.Word "EXTENSION"; sql.Word "VERSION";
             sql.QuotedIdent "1.0"]
  /\ sql.quotedIdents (createCommand examples.unnamedVersioned) = 1
  /\ strings.Contains (createCommand examples.unnamedVersioned)
       (pq.QuoteIdentifier "1.0") = true.
Proof.
  split; [discriminate |].
  repeat split.
Qed.

(** C10, amended: Observe and Delete key their commands on the external
    name, Create builds its command from the desired name.  Whenever the two
    names differ before their first zero byte, and so whenever two names
    without zero bytes differ, Create and Delete name different extension
    identifiers.  Create with an empty desired name still issues one command;
    it names no extension, its only quoted identifier is the version when one
    is set, and it has no quoted identifier at all when none is set. *)
Theorem Create_and_Delete_identifiers
  {H : Type} {D : DB H} (cr : v1alpha1.Extension) (h : H) (tr : list Event) :
  (exists rest,
      calls (snd (Observe (handed cr h tr))) = (tr ++ DBScan (scanQuery cr) :: rest)%list)
  /\ Parameters (scanQuery cr) = [v1alpha1.ExternalName cr]
  /\ calls (snd (Delete (handed cr h tr))) = (tr ++ [DBExec (dropQuery cr)])%list
  /\ calls (snd (Create (handed cr h tr))) = (tr ++ [DBExec (createQuery cr)])%list
  /\ sql.extensionNamed (String_ (dropQuery cr))
     = Some (strings.UntilNul (v1alpha1.ExternalName cr))
  /\ sql.extensionNamed (String_ (createQuery cr))
     = (if String.eqb (Extension (v1alpha1.ForProvider cr)) "" then None
        else Some (strings.UntilNul (Extension (v1alpha1.ForProvider cr))))
  /\ (strings.UntilNul (Extension (v1alpha1.ForProvider cr))
      <> strings.UntilNul (v1alpha1.ExternalName cr) ->
      sql.extensionNamed (String_ (createQuery cr))
      <> sql.extensionNamed (String_ (dropQuery cr)))
  /\ (strings.HasByte strings.nul (Extension (v1alpha1.ForProvider cr)) = false ->
      strings.HasByte strings.nul (v1alpha1.ExternalName cr) = false ->
      v1alpha1.ExternalName cr <> Extension (v1alpha1.ForProvider cr) ->
      sql.extensionNamed (String_ (createQuery cr))
      <> sql.extensionNamed (String_ (dropQuery cr)))
  /\ (Extension (v1alpha1.ForProvider cr) = "" ->
      sql.extensionNamed (String_ (createQuery cr)) = None
      /\ sql.tokens (String_ (createQuery cr))
         = Some ([sql.Word "CREATE"; sql.Word "EXTENSION"]
                 ++ match Version (v1alpha1.ForProvider cr) with
                    | Some v => [sql.Word "VERSION";
                                 sql.QuotedIdent (strings.UntilNul v)]
                    | None => []
                    end)%list)
  /\ (Extension (v1alpha1.ForProvider cr) = "" ->
      Version (v1alpha1.ForProvider cr) = None ->
      String_ (createQuery cr) = "CREATE EXTENSION "
      /\ sql.quotedIdents (String_ (createQuery cr)) = 0).
Proof.
  assert (Hdiff : strings.UntilNul (Extension (v1alpha1.ForProvider cr))
                  <> strings.UntilNul (v1alpha1.ExternalName cr) ->
                  sql.extensionNamed (String_ (createQuery cr))
                  <> sql.extensionNamed (String_ (dropQuery cr))).
  { intros Hne. cbn [String_ createQuery dropQuery].
    rewrite extensionNamed_createCommand, extensionNamed_dropCommand.
    destruct (String.eqb _ ""); [discriminate |].
    intros E; injection E as E; contradiction. }
  split; [apply Observe_scans_first |].
  split; [reflexivity |].
  rewrite Create_runs, Delete_runs; cbn [fst snd handed calls].
  split; [reflexivity |]. split; [reflexivity |].
  split; [apply extensionNamed_dropCommand |].
  split; [apply extensionNamed_createCommand |].
  split; [exact Hdiff |].
  split.
  { intros Hn He Hne. apply Hdiff.
    rewrite (UntilNul_no_nul _ Hn), (UntilNul_no_nul _ He).
    intros E; apply Hne; now symmetry. }
  split.
  - intros Hname. cbn [String_ createQuery].
    rewrite extensionNamed_createCommand, tokens_createCommand.
    unfold createTokens. rewrite Hname. split; reflexivity.
  - intros Hname Hversion. cbn [String_ createQuery].
    unfold sql.quotedIdents. rewrite tokens_createCommand.
    unfold createCommand, createTokens. rewrite Hname, Hversion.
    split; reflexivity.
Qed.

Lemma Create_and_Delete_identifiers_witness :
  strings.UntilNul (Extension examples.unset) <> strings.UntilNul "pgcrypto"
  /\ strings.HasByte strings.nul "pgcrypto" = false
  /\ Extension examples.unset = ""
  /\ Version examples.unset = None
  /\ sql.extensionNamed
       (String_ (createQuery (v1alpha1.mkExtension "pgcrypto" examples.unset [])))
     <> sql.extensionNamed
          (String_ (dropQuery (v1alpha1.mkExtension "pgcrypto" examples.unset [])))
  /\ sql.quotedIdents
       (String_ (createQuery (v1alpha1.mkExtension "pgcrypto" examples.unset [])))
     = 0.
Proof.
  pose proof (Create_and_Delete_identifiers
                (v1alpha1.mkExtension "pgcrypto" examples.unset [])
                examples.withPgcrypto [])
    as [_ [_ [_ [_ [_ [_ [Hdiff [_ [_ Hnone]]]]]]]]].
  split; [discriminate |]. split; [reflexivity |].
  split; [reflexivity |]. split; [reflexivity |].
  split.
  - apply Hdiff. discriminate.
  - apply Hnone; reflexivity.
Defined.

(** * Further properties of the code *)

(** ** The comparator and the merger together *)

Lemma option_string_eqb_eq (a b : option string) :
  option_string_eqb a b = true <-> a = b.
Proof.
  destruct a as [x|], b as [y|]; simpl; try (split; [discriminate | discriminate]).
  - rewrite String.eqb_eq. split; [now intros -> | now intros [= ->]].
  - split; reflexivity.
Qed.

Lemma upToDate_eq_iff (observed desired : ExtensionParameters) :
  upToDate observed desired = true
  <-> Extension desired = Extension observed /\ Version desired = Version observed.
Proof.
  unfold upToDate. now rewrite andb_true_iff, String.eqb_eq, option_string_eqb_eq.
Qed.

Lemma upToDate_false_iff (observed desired : ExtensionParameters) :
  upToDate observed desired = false
  <-> ~ (Extension desired = Extension observed /\ Version desired = Version observed).
Proof.
  rewrite <- upToDate_eq_iff.
  destruct (upToDate observed desired); split; intros Hx;
    try reflexivity; try discriminate; try (intros Hy; discriminate).
  now exfalso.
Qed.

(** X1: upToDate holds exactly when the two parameter values have the same
    name and the same version (both nil, or both set to equal strings), and
    fails exactly when they differ in the name or in the version. *)
Theorem upToDate_true_iff (observed desired : ExtensionParameters) :
  (upToDate observed desired = true
   <-> Extension desired = Extension observed
       /\ Version desired = Version observed)
  /\ (upToDate observed desired = false
      <-> Extension desired <> Extension observed
          \/ Version desired <> Version observed).
Proof.
  split; [apply upToDate_eq_iff |].
  rewrite upToDate_false_iff. split.
  - intros Hnot.
    destruct (String.eqb (Extension desired) (Extension observed)) eqn:En.
    + apply String.eqb_eq in En. right. intros Hv. now apply Hnot.
    + left. intros Hn. rewrite Hn, String.eqb_refl in En. discriminate.
  - intros [Hn | Hv] [Hn' Hv']; contradiction.
Qed.

(** X2: upToDate does not depend on the order of its arguments, and it is
    transitive: it is an equivalence on parameter values that looks at name
    and version only. *)
Theorem upToDate_symmetric_transitive :
  (forall a b : ExtensionParameters, upToDate a b = upToDate b a)
  /\ (forall a b c : ExtensionParameters,
        upToDate a b = true -> upToDate b c = true -> upToDate a c = true).
Proof.
  split.
  - intros a b.
    destruct (upToDate b a) eqn:E.
    + apply upToDate_eq_iff in E. apply upToDate_eq_iff.
      destruct E as [-> ->]. now split.
    + apply upToDate_false_iff in E. apply upToDate_false_iff.
      intros [Hn Hv]. apply E. now rewrite Hn, Hv.
  - intros a b c Hab Hbc.
    apply upToDate_eq_iff in Hab, Hbc. apply upToDate_eq_iff.
    destruct Hab as [Hn1 Hv1], Hbc as [Hn2 Hv2].
    split; congruence.
Qed.

Lemma upToDate_symmetric_transitive_witness :
  upToDate (examples.pgcrypto (Some "1.3"))
    (withTemplate (Some "t") (examples.pgcrypto (Some "1.3"))) = true
  /\ upToDate (withTemplate (Some "t") (examples.pgcrypto (Some "1.3")))
       (withTemplate (Some "u") (examples.pgcrypto (Some "1.3"))) = true
  /\ upToDate (examples.pgcrypto (Some "1.3"))
       (withTemplate (Some "u") (examples.pgcrypto (Some "1.3"))) = true.
Proof.
  split; [reflexivity |]. split; [reflexivity |].
  apply (proj2 upToDate_symmetric_transitive
           (examples.pgcrypto (Some "1.3"))
           (withTemplate (Some "t") (examples.pgcrypto (Some "1.3")))
           (withTemplate (Some "u") (examples.pgcrypto (Some "1.3"))));
    reflexivity.
Defined.

(** X3: after lateInit the desired parameters are up to date with the
    observed ones exactly when every desired field that was set before the
    call already agreed with the observed one. *)
Theorem lateInit_then_upToDate (observed desired : ExtensionParameters) :
  upToDate observed (snd (lateInit observed desired)) = true
  <-> (Extension desired = "" \/ Extension desired = Extension observed)
      /\ (Version desired = None \/ Version desired = Version observed).
Proof.
  rewrite upToDate_eq_iff, lateInit_unfold; cbn [snd Extension Version].
  destruct desired as [n v t], observed as [on ov ot]; cbn [Extension Version].
  destruct (String.eqb n "") eqn:Hn.
  - apply String.eqb_eq in Hn; subst n.
    destruct v as [v|]; split.
    + intros [_ Hv]. split; [now left | now right].
    + intros [_ [Hv | Hv]]; [discriminate | now split].
    + intros _. split; now left.
    + intros _. now split.
  - assert (Hne : n <> "") by (intros ->; discriminate).
    destruct v as [v|]; split.
    + intros [Hname Hv]. split; now right.
    + intros [[Hname | Hname] [Hv | Hv]]; try contradiction; try discriminate.
      now split.
    + intros [Hname _]. split; [now right | now left].
    + intros [[Hname | Hname] _]; [contradiction | now split].
Qed.

(** X4: lateInit changes nothing in desired parameters that are already up
    to date with the observed ones. *)
Theorem lateInit_keeps_up_to_date (observed desired : ExtensionParameters) :
  upToDate observed desired = true ->
  snd (lateInit observed desired) = desired
  /\ upToDate observed (snd (lateInit observed desired)) = true.
Proof.
  intros Hup.
  assert (Hsame : snd (lateInit observed desired) = desired).
  { apply upToDate_eq_iff in Hup. destruct Hup as [Hn Hv].
    rewrite lateInit_unfold; cbn [snd].
    destruct desired as [n v t]; cbn [Extension Version Template] in *.
    rewrite <- Hn, <- Hv.
    destruct (String.eqb n ""); destruct v; reflexivity. }
  split; [exact Hsame | now rewrite Hsame].
Qed.

Lemma lateInit_keeps_up_to_date_witness :
  upToDate examples.observed12 examples.observed12 = true
  /\ snd (lateInit examples.observed12 examples.observed12) = examples.observed12.
Proof.
  split; [reflexivity |].
  apply (lateInit_keeps_up_to_date examples.observed12 examples.observed12).
  reflexivity.
Defined.

(** ** What a command says about the resource *)

Lemma QuoteIdentifier_eq_iff (a b : string) :
  pq.QuoteIdentifier a = pq.QuoteIdentifier b
  <-> strings.UntilNul a = strings.UntilNul b.
Proof.
  split.
  - intros E. apply (f_equal sql.tokens) in E.
    rewrite !tokens_QuoteIdentifier in E. now injection E.
  - intros E. unfold pq.QuoteIdentifier. now rewrite E.
Qed.

Lemma createTokens_eq (p q : ExtensionParameters) :
  createTokens p = createTokens q ->
  String.eqb (Extension p) "" = String.eqb (Extension q) ""
  /\ strings.UntilNul (Extension p) = strings.UntilNul (Extension q)
  /\ option_map strings.UntilNul (Version p) = option_map strings.UntilNul (Version q).
Proof.
  unfold createTokens.
  destruct p as [n v t], q as [n' v' t']; cbn [Extension Version].
  destruct (String.eqb n "") eqn:Hn; destruct (String.eqb n' "") eqn:Hn';
    destruct v as [v|]; destruct v' as [v'|]; cbn [app option_map];
    intros E; try discriminate; try injection E as E1 E2; try injection E as E1;
    repeat match goal with
           | Hx : String.eqb _ "" = true |- _ => apply String.eqb_eq in Hx; subst
           end;
    repeat split; congruence.
Qed.

Lemma createCommand_eq_inv (p q : ExtensionParameters) :
  createCommand p = createCommand q ->
  String.eqb (Extension p) "" = String.eqb (Extension q) ""
  /\ strings.UntilNul (Extension p) = strings.UntilNul (Extension q)
  /\ option_map strings.UntilNul (Version p) = option_map strings.UntilNul (Version q).
Proof.
  intros E. apply createTokens_eq.
  apply (f_equal sql.tokens) in E. rewrite !tokens_createCommand in E.
  congruence.
Qed.

(** X5: the command of Create says which desired name and version it was
    built from, and nothing else.  Two parameter values give the same command
    exactly when their names are both empty or both not, agree before their
    first zero byte, and their versions are both nil or agree before their
    first zero byte. *)
Theorem createCommand_eq_iff (p q : ExtensionParameters) :
  createCommand p = createCommand q
  <-> String.eqb (Extension p) "" = String.eqb (Extension q) ""
      /\ strings.UntilNul (Extension p) = strings.UntilNul (Extension q)
      /\ option_map strings.UntilNul (Version p)
         = option_map strings.UntilNul (Version q).
Proof.
  split.
  - apply createCommand_eq_inv.
  - intros [He [Hn Hv]]. unfold createCommand. rewrite He.
    apply QuoteIdentifier_eq_iff in Hn. rewrite Hn.
    destruct (Version p) as [v|], (Version q) as [v'|]; cbn [option_map] in Hv;
      try discriminate; [| reflexivity].
    injection Hv as Hv. apply QuoteIdentifier_eq_iff in Hv. now rewrite Hv.
Qed.

(** X6: for names and versions without zero bytes, the command of Create
    determines the desired name and the desired version. *)
Theorem createCommand_injective (p q : ExtensionParameters) :
  strings.HasByte strings.nul (Extension p) = false ->
  strings.HasByte strings.nul (Extension q) = false ->
  (forall v, Version p = Some v -> strings.HasByte strings.nul v = false) ->
  (forall v, Version q = Some v -> strings.HasByte strings.nul v = false) ->
  createCommand p = createCommand q ->
  Extension p = Extension q /\ Version p = Version q.
Proof.
  intros Hp Hq Hvp Hvq E.
  apply createCommand_eq_inv in E. destruct E as [_ [Hn Hv]].
  rewrite (UntilNul_no_nul _ Hp), (UntilNul_no_nul _ Hq) in Hn.
  split; [exact Hn |].
  destruct (Version p) as [v|], (Version q) as [v'|]; cbn [option_map] in Hv;
    try discriminate; [| reflexivity].
  injection Hv as Hv.
  rewrite (UntilNul_no_nul _ (Hvp v eq_refl)), (UntilNul_no_nul _ (Hvq v' eq_refl)) in Hv.
  now rewrite Hv.
Qed.

Lemma createCommand_injective_witness :
  createCommand (examples.pgcrypto (Some "1.3"))
  = createCommand (withTemplate (Some "t") (examples.pgcrypto (Some "1.3")))
  /\ Extension (examples.pgcrypto (Some "1.3"))
     = Extension (withTemplate (Some "t") (examples.pgcrypto (Some "1.3")))
  /\ Version (examples.pgcrypto (Some "1.3"))
     = Version (withTemplate (Some "t") (examples.pgcrypto (Some "1.3"))).
Proof.
  split; [reflexivity |].
  apply (createCommand_injective (examples.pgcrypto (Some "1.3"))
           (withTemplate (Some "t") (examples.pgcrypto (Some "1.3")))).
  - reflexivity.
  - reflexivity.
  - intros v [= <-]. reflexivity.
  - intros v [= <-]. reflexivity.
  - reflexivity.
Defined.

(** X7: the command of Delete says which external name it was built from:
    two resources give the same command exactly when their external names
    agree before their first zero byte, whatever their desired parameters
    are. *)
Theorem dropCommand_eq_iff (cr cr' : v1alpha1.Extension) :
  dropCommand cr = dropCommand cr'
  <-> strings.UntilNul (v1alpha1.ExternalName cr)
      = strings.UntilNul (v1alpha1.ExternalName cr').
Proof.
  unfold dropCommand, meta.GetExternalName.
  rewrite <- QuoteIdentifier_eq_iff. split.
  - apply append_inv_head.
  - now intros ->.
Qed.

(** ** Errors and their labels *)

Lemma HasPrefix_refl (s : string) : strings.HasPrefix s s = true.
Proof.
  induction s as [|c s IH]; simpl; [reflexivity |].
  now rewrite Ascii.eqb_refl, IH.
Qed.

Lemma Contains_refl (s : string) : strings.Contains s s = true.
Proof. destruct s; simpl; [reflexivity |]. now rewrite Ascii.eqb_refl, HasPrefix_refl. Qed.

Lemma Contains_append_r (a b : string) : strings.Contains (a ++ b) b = true.
Proof.
  induction a as [|c a IH]; [apply Contains_refl |].
  change (strings.Contains (String c a ++ b) b)
    with (strings.HasPrefix (String c (a ++ b)) b || strings.Contains (a ++ b) b).
  rewrite IH. apply orb_true_r.
Qed.

Lemma labelled_In (labels : list string) (label : string) (e : error) :
  In label labels -> strings.HasPrefix (Error e) label = true ->
  labelled labels e = true.
Proof.
  intros Hin Hpre. unfold labelled. apply existsb_exists. now exists label.
Qed.

Lemma labelled_New (labels : list string) (label : string) :
  In label labels -> labelled labels (New label) = true.
Proof. intros Hin. apply (labelled_In _ label); [exact Hin | apply HasPrefix_refl]. Qed.

Lemma labelled_Wrapped (labels : list string) (label : string) (e : error) :
  In label labels -> labelled labels (Wrapped e label) = true.
Proof.
  intros Hin. apply (labelled_In _ label); [exact Hin |].
  cbn [Error]. apply HasPrefix_append.
Qed.

Lemma Wrap_None (err : option error) (label : string) :
  Wrap err label = None <-> err = None.
Proof. destruct err; simpl; split; intros E; congruence. Qed.

Lemma SetCondition_again (c : xpv1.Condition) (cs : list xpv1.Condition) :
  xpv1.SetCondition c (xpv1.SetCondition c cs) = xpv1.SetCondition c cs.
Proof.
  assert (Hc : xpv1.ConditionType_eqb (xpv1.Type_ c) (xpv1.Type_ c) = true)
    by (destruct (xpv1.Type_ c); reflexivity).
  induction cs as [|c' cs IH]; simpl.
  - now rewrite Hc.
  - destruct (xpv1.ConditionType_eqb (xpv1.Type_ c') (xpv1.Type_ c)) eqn:E; simpl.
    + now rewrite Hc.
    + now rewrite E, IH.
Qed.

(** ** Observe, Create, Update and Delete on every input *)

Lemma Observe_runs {H : Type} {D : DB H}
  (cr : v1alpha1.Extension) (h : H) (tr : list Event) :
  Observe (handed cr h tr)
  = (let '((err, v), h') := Scan (scanQuery cr) "" h in
     if IsNoRows err then
       ((mkExternalObservation false false false, None),
        handed cr h' (tr ++ [DBScan (scanQuery cr)]))
     else
       match err with
       | Some e =>
           ((NoObservation, Some (Wrapped e errSelectExtension)),
            handed cr h' (tr ++ [DBScan (scanQuery cr)]))
       | None =>
           let observed := mkExtensionParameters "" (Some v) None in
           let merged := lateInit observed (v1alpha1.ForProvider cr) in
           ((mkExternalObservation true (upToDate observed (snd merged)) (fst merged),
             None),
            handed
              (v1alpha1.mkExtension (v1alpha1.ExternalName cr) (snd merged)
                 (xpv1.SetCondition xpv1.Available (v1alpha1.Conditions cr)))
              h' (tr ++ [DBScan (scanQuery cr); CalledLateInit; CalledUpToDate]))
       end).
Proof.
  unfold handed, scanQuery. run.
  destruct (Scan _ "" h) as [[err v] h'].
  destruct (IsNoRows err); [reflexivity |].
  destruct err as [e|]; [reflexivity |].
  run. destruct (lateInit _ _) as [li desired]. run.
  rewrite <- !app_assoc. reflexivity.
Qed.

Section Entry.

Context {H : Type} {D : DB H}.

Variable cr : v1alpha1.Extension.
Variable h : H.
Variable tr : list Event.

(** X8: when the lookup finds the row, Observe marks the resource available,
    sets the desired version to the observed one if it was nil and changes
    nothing else; it reports late initialization when the desired name is
    empty or the desired version was nil, and it reports the resource up to
    date only when the desired name is empty and the desired version was nil
    or equal to the observed one.  It called the merger and then the
    comparator, after the lookup. *)
Theorem Observe_found (v : string) (h' : H) :
  Scan (scanQuery cr) "" h = ((None, v), h') ->
  Observe (handed cr h tr)
  = ((mkExternalObservation true
        (String.eqb (Extension (v1alpha1.ForProvider cr)) ""
         && match Version (v1alpha1.ForProvider cr) with
            | None => true
            | Some w => String.eqb w v
            end)
        (String.eqb (Extension (v1alpha1.ForProvider cr)) ""
         || match Version (v1alpha1.ForProvider cr) with
            | None => true
            | Some _ => false
            end),
      None),
     handed
       (v1alpha1.mkExtension (v1alpha1.ExternalName cr)
          (mkExtensionParameters
             (Extension (v1alpha1.ForProvider cr))
             (match Version (v1alpha1.ForProvider cr) with
              | None => Some v
              | Some w => Some w
              end)
             (Template (v1alpha1.ForProvider cr)))
          (xpv1.SetCondition xpv1.Available (v1alpha1.Conditions cr)))
       h' (tr ++ [DBScan (scanQuery cr); CalledLateInit; CalledUpToDate])).
Proof.
  intros Hscan. rewrite Observe_runs, Hscan. cbn [IsNoRows].
  cbv zeta. rewrite lateInit_unfold. cbn [fst snd].
  unfold upToDate.
  destruct cr as [ext [n ver t] conds];
    cbn [v1alpha1.ForProvider v1alpha1.ExternalName v1alpha1.Conditions
         Extension Version Template].
  destruct (String.eqb n "") eqn:Hn.
  - apply String.eqb_eq in Hn; subst n.
    destruct ver as [w|]; cbn [option_string_eqb andb orb String.eqb];
      rewrite ?String.eqb_refl; reflexivity.
  - destruct ver as [w|]; cbn [option_string_eqb andb orb]; rewrite Hn; reflexivity.
Qed.

(** X9: when the lookup fails with an error that is not a no-rows error,
    Observe returns the empty observation and that error under the label
    cannot select extension, whose message keeps the message of the cause.
    It has done the lookup and nothing else: the resource is untouched. *)
Theorem Observe_scan_error (e : error) (dest : string) (h' : H) :
  Scan (scanQuery cr) "" h = ((Some e, dest), h') ->
  IsErrNoRows e = false ->
  Observe (handed cr h tr)
  = ((NoObservation, Some (Wrapped e errSelectExtension)),
     handed cr h' (tr ++ [DBScan (scanQuery cr)]))
  /\ Error (Wrapped e errSelectExtension) = errSelectExtension ++ ": " ++ Error e
  /\ strings.Contains (Error (Wrapped e errSelectExtension)) (Error e) = true.
Proof.
  intros Hscan Hno. split; [| split].
  - rewrite Observe_runs, Hscan. cbn [IsNoRows]. now rewrite Hno.
  - reflexivity.
  - cbn [Error]. rewrite <- append_assoc. apply Contains_append_r.
Qed.

(** X10: once Observe has found the row, observing again changes nothing in
    the resource, whatever the second lookup answers: a row with any version,
    no row, or an error. *)
Theorem Observe_again_keeps_resource (v : string) (h' : H) :
  Scan (scanQuery cr) "" h = ((None, v), h') ->
  mg (snd (Observe (snd (Observe (handed cr h tr)))))
  = mg (snd (Observe (handed cr h tr))).
Proof.
  intros Hscan. rewrite Observe_runs, Hscan. cbn [IsNoRows]. cbv zeta. cbn [snd].
  match goal with
  | |- context [Observe (handed ?c ?x ?t)] =>
      rewrite (Observe_runs c x t)
  end.
  destruct (Scan _ "" h') as [[err v2] h2].
  destruct (IsNoRows err); [reflexivity |].
  destruct err as [e|]; [reflexivity |].
  cbv zeta. cbn [snd mg handed v1alpha1.ForProvider v1alpha1.ExternalName
                 v1alpha1.Conditions].
  rewrite SetCondition_again, !lateInit_unfold.
  cbn [snd Extension Version Template].
  destruct (String.eqb (Extension (v1alpha1.ForProvider cr)) "") eqn:Hn;
    destruct (Version (v1alpha1.ForProvider cr)); rewrite ?Hn; reflexivity.
Qed.

End Entry.

Section AnyResource.

Context {H : Type} {D : DB H}.

Variable h : H.
Variable tr : list Event.

(** X11: handed a resource that is not an Extension, each of the four entry
    points returns the error managed resource is not a Extension custom
    resource, hands nothing to the executor and changes nothing. *)
Theorem other_kinds_are_rejected (kind : string) :
  Observe (mkState (MgOther kind) h tr)
  = ((NoObservation, Some (New errNotExtension)), mkState (MgOther kind) h tr)
  /\ Create (mkState (MgOther kind) h tr)
     = ((mkExternalCreation, Some (New errNotExtension)), mkState (MgOther kind) h tr)
  /\ Update (mkState (MgOther kind) h tr)
     = ((mkExternalUpdate, Some (New errNotExtension)), mkState (MgOther kind) h tr)
  /\ Delete (mkState (MgOther kind) h tr)
     = (Some (New errNotExtension), mkState (MgOther kind) h tr).
Proof. repeat split. Qed.

(** X12: Create hands exactly one command to the executor, the create
    command with no parameters, and leaves the resource as it was.  When the
    executor succeeds Create returns nil; when it fails Create returns an
    error whose message is the label cannot create extension followed by the
    message of the executor's error. *)
Theorem Create_one_command_labelled_error (cr : v1alpha1.Extension) :
  calls (snd (Create (handed cr h tr))) = (tr ++ [DBExec (createQuery cr)])%list
  /\ Parameters (createQuery cr) = []
  /\ mg (snd (Create (handed cr h tr))) = MgExtension cr
  /\ (fst (Exec (createQuery cr) h) = None ->
      snd (fst (Create (handed cr h tr))) = None)
  /\ (forall e : error,
        fst (Exec (createQuery cr) h) = Some e ->
        exists e' : error,
          snd (fst (Create (handed cr h tr))) = Some e'
          /\ Error e' = errCreateExtension ++ ": " ++ Error e
          /\ strings.Contains (Error e') errCreateExtension = true
          /\ strings.Contains (Error e') (Error e) = true).
Proof.
  rewrite Create_runs; cbn [fst snd handed calls mg].
  split; [reflexivity |]. split; [reflexivity |]. split; [reflexivity |].
  split.
  - intros ->. reflexivity.
  - intros e ->. exists (Wrapped e errCreateExtension).
    split; [reflexivity |]. split; [reflexivity |].
    cbn [Error]. split; [apply Contains_append |].
    rewrite <- append_assoc. apply Contains_append_r.
Qed.

(** X13: no error of the executor is lost, but for the no-rows error of the
    lookup.  Create and Delete return nil exactly when the executor's Exec
    does, and Observe returns nil exactly when the executor's Scan returns nil
    or a no-rows error. *)
Theorem executor_errors_are_returned (cr : v1alpha1.Extension) :
  (snd (fst (Create (handed cr h tr))) = None
   <-> fst (Exec (createQuery cr) h) = None)
  /\ (fst (Delete (handed cr h tr)) = None
      <-> fst (Exec (dropQuery cr) h) = None)
  /\ (snd (fst (Observe (handed cr h tr))) = None
      <-> fst (fst (Scan (scanQuery cr) "" h)) = None
          \/ IsNoRows (fst (fst (Scan (scanQuery cr) "" h))) = true).
Proof.
  rewrite Create_runs, Delete_runs, Observe_runs; cbn [fst snd].
  split; [apply Wrap_None |]. split; [apply Wrap_None |].
  destruct (Scan (scanQuery cr) "" h) as [[err v] h']; cbn [fst snd].
  destruct (IsNoRows err) eqn:Hno; cbn [fst snd].
  - split; [now right | reflexivity].
  - destruct err as [e|]; cbn [fst snd].
    + split; [discriminate | intros [E | E]; discriminate].
    + split; [now left | reflexivity].
Qed.

(** X14: every error an entry point returns, on any resource and with any
    executor, carries a label of that entry point at the start of its
    message: not-an-Extension or cannot select extension for Observe,
    not-an-Extension or cannot create extension for Create, not-an-Extension
    for Update, not-an-Extension or cannot drop extension for Delete. *)
Theorem external_errors_are_labelled (m : Managed) (e : error) :
  (snd (fst (Observe (mkState m h tr))) = Some e ->
   labelled [errNotExtension; errSelectExtension] e = true)
  /\ (snd (fst (Create (mkState m h tr))) = Some e ->
      labelled [errNotExtension; errCreateExtension] e = true)
  /\ (snd (fst (Update (mkState m h tr))) = Some e ->
      labelled [errNotExtension] e = true)
  /\ (fst (Delete (mkState m h tr)) = Some e ->
      labelled [errNotExtension; errDropExtension] e = true).
Proof.
  destruct m as [cr | kind].
  - fold (handed cr h tr). rewrite Create_runs, Delete_runs, Observe_runs.
    cbn [fst snd].
    split; [| split; [| split]].
    + destruct (Scan (scanQuery cr) "" h) as [[err v] h'].
      destruct (IsNoRows err); [discriminate |].
      destruct err as [e0|]; cbn [fst snd]; [| discriminate].
      intros [= <-]. apply labelled_Wrapped. right; now left.
    + destruct (fst (Exec (createQuery cr) h)) as [e0|]; cbn [Wrap]; [| discriminate].
      intros [= <-]. apply labelled_Wrapped. right; now left.
    + discriminate.
    + destruct (fst (Exec (dropQuery cr) h)) as [e0|]; cbn [Wrap]; [| discriminate].
      intros [= <-]. apply labelled_Wrapped. right; now left.
  - repeat split; intros [= <-]; apply labelled_New; now left.
Qed.

(** X15: Create, Update and Delete never change the resource they are handed,
    of whatever kind.  Observe never changes its kind, its external name, its
    desired name or its template, nor a desired version that is set. *)
Theorem resource_is_preserved (m : Managed) :
  mg (snd (Create (mkState m h tr))) = m
  /\ mg (snd (Update (mkState m h tr))) = m
  /\ mg (snd (Delete (mkState m h tr))) = m
  /\ match m with
     | MgOther _ => mg (snd (Observe (mkState m h tr))) = m
     | MgExtension cr =>
         exists cr' : v1alpha1.Extension,
           mg (snd (Observe (mkState m h tr))) = MgExtension cr'
           /\ v1alpha1.ExternalName cr' = v1alpha1.ExternalName cr
           /\ Extension (v1alpha1.ForProvider cr') = Extension (v1alpha1.ForProvider cr)
           /\ Template (v1alpha1.ForProvider cr') = Template (v1alpha1.ForProvider cr)
           /\ (Version (v1alpha1.ForProvider cr) <> None ->
               Version (v1alpha1.ForProvider cr') = Version (v1alpha1.ForProvider cr))
     end.
Proof.
  destruct m as [cr | kind]; [| repeat split].
  fold (handed cr h tr). rewrite Create_runs, Delete_runs, Observe_runs.
  cbn [fst snd handed mg].
  split; [reflexivity |]. split; [reflexivity |]. split; [reflexivity |].
  destruct (Scan (scanQuery cr) "" h) as [[err v] h'].
  destruct (IsNoRows err); [exists cr; repeat split |].
  destruct err as [e0|]; [exists cr; repeat split |].
  cbv zeta. cbn [snd mg handed]. rewrite lateInit_unfold. cbn [snd].
  eexists. split; [reflexivity |].
  cbn [v1alpha1.ExternalName v1alpha1.ForProvider Extension Version Template].
  split; [reflexivity |]. split.
  - destruct (String.eqb (Extension (v1alpha1.ForProvider cr)) "") eqn:Hn;
      [| reflexivity].
    apply String.eqb_eq in Hn. now rewrite Hn.
  - split; [reflexivity |].
    intros Hv. destruct (Version (v1alpha1.ForProvider cr)); [reflexivity | contradiction].
Qed.

End AnyResource.

(** ** Connect *)

Section Connecting.

Context {K U H : Type} {CK : Client K} {TU : Tracker U}.

Variable getRef : v1alpha1.Extension -> option string.

(** X16: Connect returns either a client and no error, or no client and an
    error whose message starts with one of its five labels; it never returns
    both, and never neither. *)
Theorem Connect_client_or_labelled_error
  (m : Managed) (c : ConnectState K U H) (cl : option H) (err : option error) :
  fst (Connect getRef m c) = Returned cl err ->
  (exists d : H, cl = Some d /\ err = None)
  \/ (cl = None /\ exists e : error, err = Some e /\ labelled connectLabels e = true).
Proof.
  connect_cases getRef m c; intros E; try discriminate; injection E as <- <-.
  - right. split; [reflexivity |]. eexists; split; [reflexivity |].
    apply labelled_Wrapped. right; now left.
  - right. split; [reflexivity |]. eexists; split; [reflexivity |].
    apply labelled_Wrapped. right; right; now left.
  - right. split; [reflexivity |]. eexists; split; [reflexivity |].
    apply labelled_Wrapped. do 4 right; now left.
  - left. eexists; split; reflexivity.
  - right. split; [reflexivity |]. eexists; split; [reflexivity |].
    apply labelled_New. do 3 right; now left.
  - right. split; [reflexivity |]. eexists; split; [reflexivity |].
    apply labelled_New. now left.
Qed.

(** X17: a client is returned only when every step succeeded, and the handle
    it holds is newDB applied to the Data of the secret the provider
    configuration references: the resource is an Extension, tracking
    succeeded, the provider configuration named by the resource was found and
    references a secret, and that secret was found. *)
Theorem Connect_client_provenance
  (m : Managed) (c : ConnectState K U H) (d : H) (err : option error) :
  fst (Connect getRef m c) = Returned (Some d) err ->
  exists (cr : v1alpha1.Extension) (name : string) (pc : ProviderConfig)
         (ref : SecretReference) (s : Secret),
    m = MgExtension cr
    /\ fst (Track m (usage (self c))) = None
    /\ getRef cr = Some name
    /\ fst (GetProviderConfig (types.mkNamespacedName "" name)
              (mkProviderConfig None) (kube (self c))) = (None, pc)
    /\ ConnectionSecretRef pc = Some ref
    /\ fst (GetSecret (types.mkNamespacedName (RefNamespace ref) (RefName ref))
              (mkSecret [])
              (snd (GetProviderConfig (types.mkNamespacedName "" name)
                      (mkProviderConfig None) (kube (self c))))) = (None, s)
    /\ d = newDB (self c) (Data s).
Proof.
  connect_cases getRef m c; intros E; try discriminate.
  injection E as <- <-.
  exists cr, name, pc, ref, s.
  rewrite ?Htrack, ?Hpc; cbn [fst snd]. rewrite ?Hsecret; cbn [fst].
  repeat split; assumption.
Qed.

(** X18: when every step succeeds Connect returns the client on newDB of the
    secret's Data and no error; it has tracked the resource, fetched the
    provider configuration by the name the resource gives (with no
    namespace), fetched the secret by the namespace and name the provider
    configuration gives, and opened the database, in that order. *)
Theorem Connect_succeeds
  (cr : v1alpha1.Extension) (c : ConnectState K U H) (u : U) (name : string)
  (pc : ProviderConfig) (k1 k2 : K) (ref : SecretReference) (s : Secret) :
  Track (MgExtension cr) (usage (self c)) = (None, u) ->
  getRef cr = Some name ->
  GetProviderConfig (types.mkNamespacedName "" name) (mkProviderConfig None)
    (kube (self c)) = ((None, pc), k1) ->
  ConnectionSecretRef pc = Some ref ->
  GetSecret (types.mkNamespacedName (RefNamespace ref) (RefName ref))
    (mkSecret []) k1 = ((None, s), k2) ->
  Connect getRef (MgExtension cr) c
  = (Returned (Some (newDB (self c) (Data s))) None,
     mkConnectState (mkConnector k2 u (newDB (self c)))
       (did c
        ++ [Tracked (MgExtension cr);
            GotProviderConfig (types.mkNamespacedName "" name);
            GotSecret (types.mkNamespacedName (RefNamespace ref) (RefName ref));
            OpenedDB (Data s)])).
Proof.
  intros Ht Hr Hp Hs Hg. unfold Connect.
  rewrite Ht; cbn [kube usage self newDB did]. rewrite Hr, Hp;
    cbn [kube usage self newDB did]. rewrite Hs, Hg;
    cbn [kube usage self newDB did].
  now rewrite <- !app_assoc.
Qed.

(** X19: each failure has its own label.  A failure of the tracker is
    returned under cannot track ProviderConfig usage, a failure to get the
    provider configuration under cannot get ProviderConfig, a provider
    configuration without a secret reference gives the error ProviderConfig
    does not reference a credentials Secret, and a failure to get the secret
    is returned under cannot get credentials Secret. *)
Theorem Connect_failure_labels
  (cr : v1alpha1.Extension) (c : ConnectState K U H) (e : error) :
  (fst (Track (MgExtension cr) (usage (self c))) = Some e ->
   fst (Connect getRef (MgExtension cr) c)
   = Returned None (Some (Wrapped e errTrackPCUsage)))
  /\ (forall name : string,
        fst (Track (MgExtension cr) (usage (self c))) = None ->
        getRef cr = Some name ->
        fst (fst (GetProviderConfig (types.mkNamespacedName "" name)
                    (mkProviderConfig None) (kube (self c)))) = Some e ->
        fst (Connect getRef (MgExtension cr) c)
        = Returned None (Some (Wrapped e errGetPC)))
  /\ (forall (name : string) (pc : ProviderConfig),
        fst (Track (MgExtension cr) (usage (self c))) = None ->
        getRef cr = Some name ->
        fst (GetProviderConfig (types.mkNamespacedName "" name)
               (mkProviderConfig None) (kube (self c))) = (None, pc) ->
        ConnectionSecretRef pc = None ->
        fst (Connect getRef (MgExtension cr) c)
        = Returned None (Some (New errNoSecretRef)))
  /\ (forall (name : string) (pc : ProviderConfig) (ref : SecretReference),
        fst (Track (MgExtension cr) (usage (self c))) = None ->
        getRef cr = Some name ->
        fst (GetProviderConfig (types.mkNamespacedName "" name)
               (mkProviderConfig None) (kube (self c))) = (None, pc) ->
        ConnectionSecretRef pc = Some ref ->
        fst (fst (GetSecret (types.mkNamespacedName (RefNamespace ref) (RefName ref))
                    (mkSecret [])
                    (snd (GetProviderConfig (types.mkNamespacedName "" name)
                            (mkProviderConfig None) (kube (self c)))))) = Some e ->
        fst (Connect getRef (MgExtension cr) c)
        = Returned None (Some (Wrapped e errGetSecret))).
Proof.
  unfold Connect.
  destruct (Track (MgExtension cr) (usage (self c))) as [terr u];
    cbn [kube usage self newDB did fst snd].
  split; [intros ->; reflexivity |].
  split; [| split].
  - intros name -> ->.
    destruct (GetProviderConfig _ _ (kube (self c))) as [[perr pc] k];
      cbn [kube usage self newDB did fst snd].
    intros ->. reflexivity.
  - intros name pc -> ->.
    destruct (GetProviderConfig _ _ (kube (self c))) as [[perr pc'] k];
      cbn [kube usage self newDB did fst snd].
    intros [= -> ->] ->. reflexivity.
  - intros name pc ref -> ->.
    destruct (GetProviderConfig _ _ (kube (self c))) as [[perr pc'] k];
      cbn [kube usage self newDB did fst snd].
    intros [= -> ->] ->.
    destruct (GetSecret _ _ k) as [[serr s] k'];
      cbn [kube usage self newDB did fst snd].
    intros ->. reflexivity.
Qed.

(** X20: Connect panics on a nil pointer exactly when the resource is an
    Extension, tracking succeeded and the resource has no provider
    configuration reference; the usage has been tracked by then, and nothing
    was fetched. *)
Theorem Connect_panics_iff (m : Managed) (c : ConnectState K U H) :
  (fst (Connect getRef m c) = NilDereference
   <-> exists cr : v1alpha1.Extension,
         m = MgExtension cr
         /\ fst (Track m (usage (self c))) = None
         /\ getRef cr = None)
  /\ (fst (Connect getRef m c) = NilDereference ->
      did (snd (Connect getRef m c)) = (did c ++ [Tracked m])%list
      /\ kube (self (snd (Connect getRef m c))) = kube (self c)).
Proof.
  connect_cases getRef m c;
    (split;
     [ split;
       [ intros E; try discriminate; exists cr; repeat split; assumption
       | intros [cr' [Em [Ht Hr]]]; try discriminate;
         injection Em as <-; cbn [fst] in Ht; congruence ]
     | intros E; try discriminate; split; reflexivity ]).
Qed.

End Connecting.

(** ** The further properties at work *)

Lemma Observe_found_witness :
  Scan (scanQuery examples.pgcryptoCR) "" examples.withPgcrypto
  = ((None, "1.3"), examples.withPgcrypto)
  /\ Observe (handed examples.pgcryptoCR examples.withPgcrypto [])
     = ((mkExternalObservation true false true, None),
        handed
          (v1alpha1.mkExtension "pgcrypto" (examples.pgcrypto (Some "1.3"))
             [xpv1.Available])
          examples.withPgcrypto
          [DBScan (scanQuery examples.pgcryptoCR); CalledLateInit; CalledUpToDate]).
Proof.
  split; [reflexivity |].
  apply (Observe_found examples.pgcryptoCR examples.withPgcrypto []
           "1.3" examples.withPgcrypto).
  reflexivity.
Defined.

Lemma Observe_scan_error_witness :
  Scan (scanQuery examples.pgcryptoCR) "" unreachable.refused
  = ((Some (New "connection refused"), ""), unreachable.refused)
  /\ IsErrNoRows (New "connection refused") = false
  /\ Observe (handed examples.pgcryptoCR unreachable.refused [])
     = ((NoObservation, Some (Wrapped (New "connection refused") errSelectExtension)),
        handed examples.pgcryptoCR unreachable.refused
          [DBScan (scanQuery examples.pgcryptoCR)]).
Proof.
  split; [reflexivity |]. split; [reflexivity |].
  apply (Observe_scan_error examples.pgcryptoCR unreachable.refused []
           (New "connection refused") "" unreachable.refused); reflexivity.
Defined.

Lemma Observe_again_keeps_resource_witness :
  Scan (scanQuery examples.pgcryptoCR) "" examples.withPgcrypto
  = ((None, "1.3"), examples.withPgcrypto)
  /\ mg (snd (Observe (snd (Observe
                              (handed examples.pgcryptoCR examples.withPgcrypto [])))))
     = MgExtension
         (v1alpha1.mkExtension "pgcrypto" (examples.pgcrypto (Some "1.3"))
            [xpv1.Available]).
Proof.
  split; [reflexivity |].
  transitivity (mg (snd (Observe (handed examples.pgcryptoCR examples.withPgcrypto []))));
    [| reflexivity].
  apply (Observe_again_keeps_resource examples.pgcryptoCR examples.withPgcrypto []
           "1.3" examples.withPgcrypto).
  reflexivity.
Defined.

Lemma Create_one_command_labelled_error_witness :
  fst (Exec (createQuery examples.ext1CR) unreachable.refused)
  = Some (New "connection refused")
  /\ exists e' : error,
       snd (fst (Create (handed examples.ext1CR unreachable.refused []))) = Some e'
       /\ Error e' = errCreateExtension ++ ": " ++ "connection refused"
       /\ strings.Contains (Error e') errCreateExtension = true
       /\ strings.Contains (Error e') "connection refused" = true.
Proof.
  split; [reflexivity |].
  apply (proj2 (proj2 (proj2 (proj2
           (Create_one_command_labelled_error unreachable.refused []
              examples.ext1CR))))
           (New "connection refused")).
  reflexivity.
Defined.

Lemma external_errors_are_labelled_witness :
  fst (Delete (mkState (MgExtension examples.ext1CR) unreachable.refused []))
  = Some (Wrapped (New "connection refused") errDropExtension)
  /\ labelled [errNotExtension; errDropExtension]
       (Wrapped (New "connection refused") errDropExtension) = true.
Proof.
  split; [reflexivity |].
  apply (proj2 (proj2 (proj2
           (external_errors_are_labelled unreachable.refused []
              (MgExtension examples.ext1CR)
              (Wrapped (New "connection refused") errDropExtension))))).
  reflexivity.
Defined.

Lemma resource_is_preserved_witness :
  Version (v1alpha1.ForProvider references.pinnedCR) <> None
  /\ exists cr' : v1alpha1.Extension,
       mg (snd (Observe (mkState (MgExtension references.pinnedCR)
                           examples.withPgcrypto [])))
       = MgExtension cr'
       /\ Version (v1alpha1.ForProvider cr') = Some "1.0".
Proof.
  split; [discriminate |].
  destruct (proj2 (proj2 (proj2
              (resource_is_preserved examples.withPgcrypto []
                 (MgExtension references.pinnedCR)))))
    as [cr' [Hmg [_ [_ [_ Hversion]]]]].
  exists cr'. split; [exact Hmg |].
  apply Hversion. discriminate.
Defined.

Lemma Connect_client_or_labelled_error_witness :
  fst (Connect references.toBare (MgExtension examples.pgcryptoCR)
         (fakecluster.start None))
  = Returned None (Some (New errNoSecretRef))
  /\ ((exists d : PG, @None PG = Some d /\ Some (New errNoSecretRef) = None)
      \/ (@None PG = None
          /\ exists e : error,
               Some (New errNoSecretRef) = Some e
               /\ labelled connectLabels e = true)).
Proof.
  split; [reflexivity |].
  apply (Connect_client_or_labelled_error references.toBare
           (MgExtension examples.pgcryptoCR) (fakecluster.start None)).
  reflexivity.
Defined.

Lemma Connect_client_provenance_witness :
  fst (Connect references.toDefault (MgExtension examples.pgcryptoCR)
         (fakecluster.start None))
  = Returned (Some (fakecluster.open [("username", "postgres")])) None
  /\ exists (cr : v1alpha1.Extension) (name : string) (pc : ProviderConfig)
            (ref : SecretReference) (s : Secret),
       MgExtension examples.pgcryptoCR = MgExtension cr
       /\ references.toDefault cr = Some name
       /\ ConnectionSecretRef pc = Some ref
       /\ fakecluster.open [("username", "postgres")] = fakecluster.open (Data s).
Proof.
  split; [reflexivity |].
  assert (E : fst (Connect references.toDefault (MgExtension examples.pgcryptoCR)
                     (fakecluster.start None))
              = Returned (Some (fakecluster.open [("username", "postgres")])) None)
    by reflexivity.
  destruct (Connect_client_provenance references.toDefault
              (MgExtension examples.pgcryptoCR) (fakecluster.start None)
              (fakecluster.open [("username", "postgres")]) None E)
    as [cr [name [pc [ref [s [Hm [_ [Hr [_ [Hs [_ Hd]]]]]]]]]]].
  exists cr, name, pc, ref, s. repeat split; assumption.
Defined.

Lemma Connect_succeeds_witness :
  Connect references.toDefault (MgExtension examples.pgcryptoCR)
    (fakecluster.start None)
  = (Returned (Some (fakecluster.open [("username", "postgres")])) None,
     mkConnectState
       (mkConnector fakecluster.objects (fakecluster.mkUsages None 1)
          fakecluster.open)
       [Tracked (MgExtension examples.pgcryptoCR);
        GotProviderConfig (types.mkNamespacedName "" "default");
        GotSecret (types.mkNamespacedName "crossplane-system" "db-conn");
        OpenedDB [("username", "postgres")]]).
Proof.
  apply (Connect_succeeds references.toDefault examples.pgcryptoCR
           (fakecluster.start None) (fakecluster.mkUsages None 1) "default"
           (mkProviderConfig (Some (mkSecretReference "crossplane-system" "db-conn")))
           fakecluster.objects fakecluster.objects
           (mkSecretReference "crossplane-system" "db-conn")
           (mkSecret [("username", "postgres")]));
    reflexivity.
Defined.

Lemma Connect_failure_labels_witness :
  fst (Track (MgExtension examples.pgcryptoCR)
         (usage (self (fakecluster.start None)))) = None
  /\ fst (fst (GetProviderConfig (types.mkNamespacedName "" "missing")
                 (mkProviderConfig None) (kube (self (fakecluster.start None)))))
     = Some (New "not found")
  /\ fst (Connect references.toMissing (MgExtension examples.pgcryptoCR)
            (fakecluster.start None))
     = Returned None (Some (Wrapped (New "not found") errGetPC)).
Proof.
  split; [reflexivity |]. split; [reflexivity |].
  apply (proj1 (proj2 (Connect_failure_labels references.toMissing
                         examples.pgcryptoCR (fakecluster.start None)
                         (New "not found")))
           "missing"); reflexivity.
Defined.

Lemma Connect_panics_iff_witness :
  references.toNothing examples.pgcryptoCR = None
  /\ fst (Connect references.toNothing (MgExtension examples.pgcryptoCR)
            (fakecluster.start None)) = NilDereference
  /\ did (snd (Connect references.toNothing (MgExtension examples.pgcryptoCR)
                 (fakecluster.start None)))
     = [Tracked (MgExtension examples.pgcryptoCR)].
Proof.
  pose proof (Connect_panics_iff references.toNothing
                (MgExtension examples.pgcryptoCR) (fakecluster.start None))
    as [Hiff Hdid].
  assert (Hpanic : fst (Connect references.toNothing
                          (MgExtension examples.pgcryptoCR)
                          (fakecluster.start None)) = NilDereference).
  { apply Hiff. exists examples.pgcryptoCR. repeat split. }
  split; [reflexivity |]. split; [exact Hpanic |].
  apply (proj1 (Hdid Hpanic)).
Defined.

